(** * Directomatic: spreadsheet rows to a Cloudflare bulk redirect list

    A shallow embedding of the row processor ([processSheetRow],
    [makeFullURL], [processBulkList], from processing.ts) and of the
    commands of the CLI ([list], [diff], [publish], [uploadBatch], from
    index.ts), with the properties of the specification stated over them.

    Console output is not part of the model: no property below is about
    what is printed.  *)

From Stdlib Require Import String Ascii List ZArith Bool Arith Lia DecimalString.
From Equations Require Import Equations.
Import ListNotations.
Local Open Scope string_scope.
Local Open Scope list_scope.

Set Implicit Arguments.

(** ** Completions

    A validator either returns a value or throws.  The only exception
    of the pipeline is the validators' error, so a completion carries no
    payload on the throwing side. *)

Inductive Completion (A : Type) : Type :=
| Normal (a : A)
| Throw.

Arguments Normal {A} a.
Arguments Throw {A}.

Definition bindC {A B} (c : Completion A) (k : A -> Completion B) : Completion B :=
  match c with
  | Normal a => k a
  | Throw => Throw
  end.

Notation "'try!' x <- c ; k" := (bindC c (fun x => k))
  (at level 60, x name, c at next level, right associativity).

(** ** Data model (index.ts) *)

(** [type RedirectCode = 301 | 302 | 307 | 308] *)
Inductive RedirectCode : Type := C301 | C302 | C307 | C308.

Definition RedirectCode_eqb (a b : RedirectCode) : bool :=
  match a, b with
  | C301, C301 | C302, C302 | C307, C307 | C308, C308 => true
  | _, _ => false
  end.

(** [code?: string | number] *)
Inductive RawCode : Type :=
| CodeAbsent
| CodeString (s : string)
| CodeNumber (n : Z).

(** [localized?: string | boolean], [deleted?: string | boolean] *)
Inductive RawFlag : Type :=
| FlagAbsent
| FlagString (s : string)
| FlagBoolean (b : bool).

(** [interface RawRedirectProps]: a raw spreadsheet row. *)
Module Raw.
Record t : Type := Build {
  source : string;
  destination : string;
  code : RawCode;
  localized : RawFlag;
  deleted : RawFlag;
}.
End Raw.

Definition RawRedirectProps : Type := Raw.t.

(** [interface RedirectProps]: a validated and sanitized redirect. *)
Module Redirect.
Record t : Type := Build {
  source : string;
  destination : string;
  code : RedirectCode;
  localized : bool;
  deleted : bool;
}.
End Redirect.

Definition RedirectProps : Type := Redirect.t.

(** A rule as the Cloudflare list API has it, and its wrapper
    [{ redirect: rule }] (processing.ts, the last line of
    [processBulkList]). *)
Record Rule : Type := {
  source_url : string;
  target_url : string;
  status_code : RedirectCode;
}.

Record BulkRedirectListItem : Type := {
  redirect : Rule;
}.

(** [interface DirectomaticResponse], the fields [uploadBatch] reads.
    [errors], [messages] and [invalidRules] are only printed. *)
Record DirectomaticResponse : Type := {
  success : option bool;
  errors : list string;
  messages : list string;
  invalidRules : list BulkRedirectListItem;
  bulkOperationsId : option string;
}.

(** [export const Locales] of index.ts. *)
Definition Locales : list string :=
  [ "de-de"; "en-au"; "en-ca"; "en-gb"; "en-in"; "en-us"; "es-es"; "fr-fr";
    "id-id"; "it-it"; "ja-jp"; "ko-kr"; "nl-nl"; "pt-br"; "ru-ru"; "sv-se";
    "th-th"; "tr-tr"; "vi-vn"; "zh-cn"; "zh-hans-cn"; "zh-tw" ].

(** ** Validators (validators.ts)

    The three validators are imported by processing.ts and index.ts; they
    are an interface of the row processor, which only relies on each of
    them returning a value or throwing. *)

Class Validators : Type := {
  validatePath : string -> Completion string;
  validateCode : RawCode -> RedirectCode -> Completion RedirectCode;
  validateBoolean : RawFlag -> bool -> Completion bool;
}.

(** ** Row processor (processing.ts) *)

Section RowProcessor.

Context {V : Validators}.

(** The object literal inside [try]: the fields are evaluated in the
    order they are written, and the first validator that throws leaves
    the [try] block. *)
Definition validateFields (input : RawRedirectProps) : Completion RedirectProps :=
  try! source <- validatePath (Raw.source input);
  try! destination <- validatePath (Raw.destination input);
  try! code <- validateCode (Raw.code input) C302;
  try! localized <- validateBoolean (Raw.localized input) true;
  try! deleted <- validateBoolean (Raw.deleted input) false;
  Normal (Redirect.Build source destination code localized deleted).

(** [processSheetRow]: [None] is the [null] of the source. *)
Definition processSheetRow (input : RawRedirectProps) : option RedirectProps :=
  match validateFields input with
  | Throw => None
  | Normal redirect =>
      if (Redirect.source redirect =? Redirect.destination redirect)%string
      then None
      else if Redirect.deleted redirect then None
      else Some redirect
  end.

End RowProcessor.

(** ** The [list] command (index.ts)

    [list] is named [list_report] here, [list] being the type of lists.
    It is a function of the rows [fetchRedirectRows] resolved to, and
    returns what the report is printed from: the valid redirects and the
    rows with errors.  The callback of [flatMap] calls [validateBoolean]
    outside of any [try], so the command itself can throw. *)

Record ListReport : Type := {
  redirectsList : list RedirectProps;
  badRows : list RawRedirectProps;
}.

Section ListCommand.

Context {V : Validators}.

(** One call of the callback given to [flatMap]: the elements it returns
    for [redirectsList], and [badRows] after the call. *)
Definition listRow (bad : list RawRedirectProps) (row : RawRedirectProps)
  : Completion (list RedirectProps * list RawRedirectProps) :=
  match processSheetRow row with
  | Some output => Normal ([output], bad)
  | None =>
      try! isDeleted <- validateBoolean (Raw.deleted row) false;
      Normal ([], if negb isDeleted then bad ++ [row] else bad)
  end.

Fixpoint listRows (inputRows : list RawRedirectProps)
  (valid : list RedirectProps) (bad : list RawRedirectProps)
  : Completion ListReport :=
  match inputRows with
  | [] => Normal {| redirectsList := valid; badRows := bad |}
  | row :: rest =>
      try! r <- listRow bad row;
      listRows rest (valid ++ fst r) (snd r)
  end.

Definition list_report (inputRows : list RawRedirectProps) : Completion ListReport :=
  listRows inputRows [] [].

End ListCommand.

(** ** Expansion into list items (processing.ts)

    [DEFAULT_DEST_DOMAIN] is a global of the deployment, and the list of
    locales is a constant of index.ts that the source itself marks as
    one to make configurable; both are fields of the site the functions
    run for. *)

Class Site : Type := {
  DEFAULT_DEST_DOMAIN : string;
  SiteLocales : list string;
}.

(** [String.prototype.indexOf], with -1 for no occurrence. *)
Definition indexOf (searchString s : string) : Z :=
  match index 0 searchString s with
  | Some n => Z.of_nat n
  | None => (-1)%Z
  end.

(** An optional string argument used as a condition: [undefined] and the
    empty string are falsy. *)
Definition truthy (locale : option string) : bool :=
  match locale with
  | Some l => negb (l =? "")%string
  | None => false
  end.

(** The template literal [`/${locale}`]. *)
Definition localePrefix (locale : option string) : string :=
  match locale with
  | Some l => ("/" ++ l)%string
  | None => "/undefined"
  end.

Section Expansion.

Context {site : Site}.

Definition makeFullURL (path : string) (locale : option string) : string :=
  if (indexOf "/" path =? 0)%Z
  then (DEFAULT_DEST_DOMAIN ++ (if truthy locale then localePrefix locale else "") ++ path)%string
  else path.

Definition makeRule (row : RedirectProps) (locale : option string) : Rule :=
  {| source_url := makeFullURL (Redirect.source row) locale;
     target_url := makeFullURL (Redirect.destination row) locale;
     status_code := Redirect.code row |}.

(** The [for (const locale of Locales)] loop: what it pushes onto [list],
    in the order it pushes. *)
Fixpoint pushLocales (row : RedirectProps) (locales : list string) : list Rule :=
  match locales with
  | [] => []
  | locale :: rest =>
      if (locale =? "en-us")%string
      then pushLocales row rest
      else makeRule row (Some locale) :: pushLocales row rest
  end.

(** The callback of [flatMap] in [processBulkList]. *)
Definition expandRow (row : RedirectProps) : list BulkRedirectListItem :=
  let list := [makeRule row None] in
  let list := if Redirect.localized row
              then list ++ pushLocales row SiteLocales
              else list in
  map (fun row => {| redirect := row |}) list.

Definition processBulkList (input : list RedirectProps) : list BulkRedirectListItem :=
  flat_map expandRow input.

End Expansion.

(** ** Rule matcher *)

Definition Rule_eqb (a b : Rule) : bool :=
  (source_url a =? source_url b)%string
  && (target_url a =? target_url b)%string
  && RedirectCode_eqb (status_code a) (status_code b).

(** Modelled from the spec: [ruleEquals] and [ruleInList], which index.ts
    imports from processing.ts and whose code is not at hand.
    [ruleEquals] is structural equality on
    [(source_url, target_url, status_code)], ignoring the wrapper. *)
Definition ruleEquals (a b : BulkRedirectListItem) : bool :=
  Rule_eqb (redirect a) (redirect b).

(** Modelled from the spec: [ruleInList rule list] is true iff some
    element of [list] is [ruleEquals] to [rule]. *)
Definition ruleInList (rule : BulkRedirectListItem) (list : list BulkRedirectListItem) : bool :=
  existsb (ruleEquals rule) list.

(** ** The [diff] command (index.ts) *)

Record DiffReport : Type := {
  addedRules : list BulkRedirectListItem;
  removedRules : list BulkRedirectListItem;
}.

(** The two [filter] calls of [diff], on the list made from the
    spreadsheet and the list read from Cloudflare. *)
Definition diffRules (spreadsheetList cloudflareList : list BulkRedirectListItem) : DiffReport :=
  let removedRules :=
    filter (fun rule => negb (ruleInList rule spreadsheetList)) cloudflareList in
  let addedRules :=
    filter (fun rule => negb (ruleInList rule cloudflareList)) spreadsheetList in
  {| addedRules := addedRules; removedRules := removedRules |}.

Section Commands.

Context {V : Validators}.

(** [makeBulkList] is imported from outputs.ts; the commands only pass
    the valid redirects through it. *)
Variable makeBulkList : list RedirectProps -> list BulkRedirectListItem.

(** [inputRows.flatMap((row) => processSheetRow(row) ?? [])] *)
Definition validRedirects (inputRows : list RawRedirectProps) : list RedirectProps :=
  flat_map (fun row => match processSheetRow row with
                       | Some r => [r]
                       | None => []
                       end) inputRows.

(** [diff], as a function of what [fetchRedirectRows] and
    [getBulkListContents] resolved to. *)
Definition diff (inputRows : list RawRedirectProps)
  (cloudflareList : list BulkRedirectListItem) : DiffReport :=
  let redirectsList := validRedirects inputRows in
  let spreadsheetList := makeBulkList redirectsList in
  diffRules spreadsheetList cloudflareList.

(** *** The remote side

    [publish] awaits its collaborators one after the other.  Each of
    them is a transition of the world outside of the program, and a run
    keeps the log of the calls it made with what they resolved to. *)

Inductive Call : Type :=
| FetchRedirectRows (rows : list RawRedirectProps)
| EmptyBulkList (ok : bool)
| UploadBulkList (batchList : list BulkRedirectListItem) (response : DirectomaticResponse)
| GetBulkOpsStatus (id : string) (ok : bool)
| SetListDescription (description : string) (ok : bool).

Variable World : Type.

Class Collaborators : Type := {
  fetchRedirectRows : World -> list RawRedirectProps * World;
  emptyBulkList : World -> bool * World;
  uploadBulkList : list BulkRedirectListItem -> World -> DirectomaticResponse * World;
  getBulkOpsStatus : string -> World -> bool * World;
  setListDescription : string -> World -> bool * World;
  Date : World -> string;
}.

Context {remote : Collaborators}.

Definition State : Type := (World * list Call)%type.

Definition Run (A : Type) : Type := State -> A * State.

Definition ret {A} (a : A) : Run A := fun st => (a, st).

Definition bind {A B} (c : Run A) (k : A -> Run B) : Run B :=
  fun st => let (a, st') := c st in k a st'.

(** An awaited call of a collaborator, logged with its result. *)
Definition await {A} (call : World -> A * World) (entry : A -> Call) : Run A :=
  fun st =>
    let (a, w') := call (fst st) in
    (a, (w', snd st ++ [entry a])).

Notation "'await!' x <- c ; k" := (bind c (fun x => k))
  (at level 60, x name, c at next level, right associativity).

(** [uploadBatch]: [if (uploadResponse.bulkOperationsId)] is the test of
    a string for being non-empty; [uploadResponse.success || false]. *)
Definition uploadBatch (i : nat) (batchList : list BulkRedirectListItem) : Run bool :=
  await! uploadResponse <- await (uploadBulkList batchList) (UploadBulkList batchList);
  if truthy (bulkOperationsId uploadResponse)
  then
    let id := match bulkOperationsId uploadResponse with
              | Some id => id
              | None => ""
              end in
    await! success <- await (getBulkOpsStatus id) (GetBulkOpsStatus id);
    if success then ret true else ret false
  else
    ret (match success uploadResponse with
         | Some true => true
         | _ => false
         end).

(** [Array.prototype.slice(start, end)] for indices that are not
    negative. *)
Definition slice {A} (start stop : nat) (l : list A) : list A :=
  skipn start (firstn stop l).

Definition batch : nat := 1000.

(** The [for (let n = 0; n < bulkList.length; n += batch)] loop of
    [publish], from the values of [n], [i] and [results] at the test of
    the loop. *)
Equations? uploadLoop (bulkList : list BulkRedirectListItem) (n i : nat)
  (results : list bool) (st : State) : list bool * State
  by wf (length bulkList - n) lt :=
uploadLoop bulkList n i results st with lt_dec n (length bulkList) := {
  | left _ =>
      let r := uploadBatch (S i) (slice n (n + batch) bulkList) st in
      uploadLoop bulkList (n + batch) (S i) (results ++ [fst r]) (snd r)
  | right _ => (results, st) }.
Proof. unfold batch. lia. Qed.

(** [publish], returning the array [results] the loop fills. *)
Definition publish : Run (list bool) :=
  await! inputRows <- await fetchRedirectRows FetchRedirectRows;
  let redirectsList := validRedirects inputRows in
  let bulkList := makeBulkList redirectsList in
  await! _ <- await emptyBulkList EmptyBulkList;
  await! results <- uploadLoop bulkList 0 0 [];
  fun st =>
    let description := ("Updated by Directomatic on " ++ Date (fst st))%string in
    let (_, st') := await (setListDescription description)
                          (SetListDescription description) st in
    (results, st').

End Commands.

(** ** The validators of the specification

    The row processor above is stated for any validators.  The concrete
    ones below are used to run it on concrete rows. *)

Definition isSpace (c : ascii) : bool :=
  let n := nat_of_ascii c in
  ((n =? 32) || ((9 <=? n) && (n <=? 13)))%nat.

Fixpoint trimStart (s : string) : string :=
  match s with
  | EmptyString => EmptyString
  | String c rest => if isSpace c then trimStart rest else s
  end.

Fixpoint trimEnd (s : string) : string :=
  match s with
  | EmptyString => EmptyString
  | String c rest =>
      match trimEnd rest with
      | EmptyString => if isSpace c then EmptyString else String c EmptyString
      | kept => String c kept
      end
  end.

Definition trim (s : string) : string := trimEnd (trimStart s).

Definition lowerChar (c : ascii) : ascii :=
  let n := nat_of_ascii c in
  if ((65 <=? n) && (n <=? 90))%nat then ascii_of_nat (n + 32) else c.

Fixpoint toLowerCase (s : string) : string :=
  match s with
  | EmptyString => EmptyString
  | String c rest => String (lowerChar c) (toLowerCase rest)
  end.

Definition codeOfNumber (n : Z) : Completion RedirectCode :=
  if (n =? 301)%Z then Normal C301
  else if (n =? 302)%Z then Normal C302
  else if (n =? 307)%Z then Normal C307
  else if (n =? 308)%Z then Normal C308
  else Throw.

(** Modelled from the spec: [validatePath] of validators.ts, which fails
    if the value is not a non-empty string recognizable as a URL path
    (absolute path or full URL) and returns the trimmed path. *)
Definition specValidatePath (value : string) : Completion string :=
  let path := trim value in
  if prefix "/" path || prefix "http://" path || prefix "https://" path
  then Normal path
  else Throw.

(** Modelled from the spec: [validateBoolean] of validators.ts, which
    accepts a boolean or the strings "true" and "false" in any case (the
    values of a checkbox of the spreadsheet), falls back to the default
    when the field is absent or empty, and fails on any other text. *)
Definition specValidateBoolean (value : RawFlag) (preferred : bool) : Completion bool :=
  match value with
  | FlagAbsent => Normal preferred
  | FlagBoolean b => Normal b
  | FlagString s =>
      let text := toLowerCase (trim s) in
      if (text =? "")%string then Normal preferred
      else if (text =? "true")%string then Normal true
      else if (text =? "false")%string then Normal false
      else Throw
  end.

(** Modelled from the spec: [validateCode] of validators.ts, which
    accepts an integer or a numeric string, fails if the number is not
    one of 301, 302, 307 and 308, and falls back to the default when the
    field is absent. *)
Definition specValidateCode (value : RawCode) (preferred : RedirectCode)
  : Completion RedirectCode :=
  match value with
  | CodeAbsent => Normal preferred
  | CodeNumber n => codeOfNumber n
  | CodeString s =>
      match NilZero.int_of_string (trim s) with
      | Some d => codeOfNumber (Z.of_int d)
      | None => Throw
      end
  end.

#[export] Instance SpecValidators : Validators := {
  validatePath := specValidatePath;
  validateCode := specValidateCode;
  validateBoolean := specValidateBoolean;
}.

(** ** Concrete sites, rows and remote sides *)

(** The site of the example of the specification. *)
Definition exampleSite : Site := {|
  DEFAULT_DEST_DOMAIN := "https://www.example.com";
  SiteLocales := [ "de-de"; "en-us"; "es-es" ];
|}.

(** The site of index.ts, for a destination domain. *)
Definition cliSite (domain : string) : Site := {|
  DEFAULT_DEST_DOMAIN := domain;
  SiteLocales := Locales;
|}.

Definition rawRow (source destination : string) (localized deleted : RawFlag)
  : RawRedirectProps :=
  Raw.Build source destination (CodeNumber 302) localized deleted.

(** A remote side that follows a script: the rows of the sheet, what the
    truncation answers, the responses of the uploads to come (an upload
    past the script is accepted), and the status of the bulk operations. *)
Record Script : Type := {
  sheet : list RawRedirectProps;
  truncateOk : bool;
  uploadResponses : list DirectomaticResponse;
  operationOk : bool;
}.

Definition response (ok : option bool) (id : option string) : DirectomaticResponse :=
  {| success := ok; errors := []; messages := []; invalidRules := [];
     bulkOperationsId := id |}.

#[export] Instance Scripted : Collaborators Script := {
  fetchRedirectRows w := (sheet w, w);
  emptyBulkList w := (truncateOk w, w);
  uploadBulkList _ w :=
    match uploadResponses w with
    | [] => (response (Some true) None, w)
    | r :: rest =>
        (r, {| sheet := sheet w; truncateOk := truncateOk w;
               uploadResponses := rest; operationOk := operationOk w |})
    end;
  getBulkOpsStatus _ w := (operationOk w, w);
  setListDescription _ w := (true, w);
  Date _ := "Tue Nov 03 2026";
}.

(** The batches a log shows as submitted to [uploadBulkList], in the
    order of the calls. *)
Fixpoint uploads (log : list Call) : list (list BulkRedirectListItem) :=
  match log with
  | [] => []
  | UploadBulkList batchList _ :: rest => batchList :: uploads rest
  | _ :: rest => uploads rest
  end.

(** What the log shows the truncation resolved to. *)
Fixpoint truncations (log : list Call) : list bool :=
  match log with
  | [] => []
  | EmptyBulkList ok :: rest => ok :: truncations rest
  | _ :: rest => truncations rest
  end.

(** A run of [publish] from a world and an empty log. *)
Definition publishRun {V : Validators} {World : Type} {remote : Collaborators World}
  (makeBulkList : list RedirectProps -> list BulkRedirectListItem) (w : World)
  : list bool * (World * list Call) :=
  publish makeBulkList (w, []).

(** ** Notions the properties are stated with *)

(** A row whose [deleted] field validates to false: the rows [list]
    pushes onto [badRows] are of this kind. *)
Definition reportable {V : Validators} (row : RawRedirectProps) : Prop :=
  validateBoolean (Raw.deleted row) false = Normal false.

(** A host-relative path: one that starts with a slash. *)
Definition hostRelative (path : string) : Prop :=
  exists rest, path = String "/"%char rest.

(** The locales of a list other than the default one, in the order of
    the list. *)
Definition prefixLocales (locales : list string) : list string :=
  filter (fun locale => negb (locale =? "en-us")%string) locales.

(** [Math.ceil(bulkList.length / 1000)], the number of batches [publish]
    announces. *)
Definition batchCount (length : nat) : nat := (length + (batch - 1)) / batch.

(** The batch of index [j], from 0: the entries from [j * 1000] up to
    [j * 1000 + 1000]. *)
Definition batchAt {A} (bulkList : list A) (j : nat) : list A :=
  slice (j * batch) (j * batch + batch) bulkList.

Definition batchesOf {A} (bulkList : list A) : list (list A) :=
  map (batchAt bulkList) (seq 0 (batchCount (length bulkList))).

(** [uploadBatch] on each batch of a list of batches, one after the
    other, whatever the outcomes: the counter [i] and the array
    [results] are those of the loop of [publish]. *)
Fixpoint uploadBatches {World : Type} {remote : Collaborators World}
  (batches : list (list BulkRedirectListItem)) (i : nat) (results : list bool)
  (st : State World) : list bool * State World :=
  match batches with
  | [] => (results, st)
  | batchList :: rest =>
      let r := uploadBatch (S i) batchList st in
      uploadBatches rest (S i) (results ++ [fst r]) (snd r)
  end.

(** The world and the log [publish] starts its loop from. *)
Definition afterTruncate {World : Type} {remote : Collaborators World}
  (w : World) : State World :=
  let fetched := fetchRedirectRows w in
  let emptied := emptyBulkList (snd fetched) in
  (snd emptied, [FetchRedirectRows (fst fetched); EmptyBulkList (fst emptied)]).

(** The list [publish] uploads in a world. *)
Definition bulkListOf {V : Validators} {World : Type} {remote : Collaborators World}
  (makeBulkList : list RedirectProps -> list BulkRedirectListItem) (w : World)
  : list BulkRedirectListItem :=
  makeBulkList (validRedirects (fst (fetchRedirectRows w))).

(** A sheet of 2500 redirects that are not localized, and remote sides
    for it. *)
Definition bigSheet : list RawRedirectProps :=
  repeat (rawRow "/old" "/new" (FlagBoolean false) FlagAbsent) 2500.

Definition firstBatchFails : Script := {|
  sheet := bigSheet;
  truncateOk := true;
  uploadResponses := [ response (Some false) None ];
  operationOk := true;
|}.

Definition truncateFails : Script := {|
  sheet := [ rawRow "/old" "/new" (FlagBoolean false) FlagAbsent ];
  truncateOk := false;
  uploadResponses := [];
  operationOk := true;
|}.

(** ** The Worker (the earlier index.ts)

    The Worker has its own list of locales and publishes without
    truncating and without batches: the [/publish] route sends the whole
    list in one call and answers with the response of that call. *)

Definition WorkerLocales : list string := [ "en-us"; "de-de"; "es-es" ].

Definition workerSite (domain : string) : Site := {|
  DEFAULT_DEST_DOMAIN := domain;
  SiteLocales := WorkerLocales;
|}.

Section Worker.

Context {V : Validators} {World : Type} {remote : Collaborators World}.

Variable makeBulkList : list RedirectProps -> list BulkRedirectListItem.


End Worker.

(** ** Further notions the properties are stated with *)

(** The rows [list] reports as rows with errors: rejected, with a
    [deleted] field that validates to false. *)
Definition isBadRow {V : Validators} (row : RawRedirectProps) : bool :=
  match processSheetRow row with
  | Some _ => false
  | None =>
      match validateBoolean (Raw.deleted row) false with
      | Normal false => true
      | _ => false
      end
  end.

(** The rows [list] drops without a word: those marked deleted. *)
Definition isDeletedRow {V : Validators} (row : RawRedirectProps) : bool :=
  match validateBoolean (Raw.deleted row) false with
  | Normal true => true
  | _ => false
  end.

(** A destination domain with a scheme or a host in front: not empty and
    not starting with a slash. *)
Definition absoluteDomain (domain : string) : Prop :=
  exists c rest, domain = String c rest /\ c <> "/"%char.

(** The calls [uploadBatch] makes. *)
Definition batchCall (c : Call) : Prop :=
  match c with
  | UploadBulkList _ _ | GetBulkOpsStatus _ _ => True
  | _ => False
  end.


(** * Properties *)

(** ** Row processor *)

Section RowProcessorFacts.

Context {V : Validators}.

(** Case analysis on the validator calls of [processSheetRow], in the
    order of the source. *)
Ltac validators input :=
  unfold processSheetRow, validateFields;
  destruct (validatePath (Raw.source input)) as [src|] eqn:Esrc;
    cbn; [|try easy];
  destruct (validatePath (Raw.destination input)) as [dst|] eqn:Edst;
    cbn; [|try easy];
  destruct (validateCode (Raw.code input) C302) as [cod|] eqn:Ecod;
    cbn; [|try easy];
  destruct (validateBoolean (Raw.localized input) true) as [loc|] eqn:Eloc;
    cbn; [|try easy];
  destruct (validateBoolean (Raw.deleted input) false) as [del|] eqn:Edel;
    cbn; [|try easy].

(** What an accepted row went through. *)
Lemma processSheetRow_Some (input : RawRedirectProps) (r : RedirectProps) :
  processSheetRow input = Some r ->
  validatePath (Raw.source input) = Normal (Redirect.source r)
  /\ validatePath (Raw.destination input) = Normal (Redirect.destination r)
  /\ validateBoolean (Raw.deleted input) false = Normal (Redirect.deleted r)
  /\ Redirect.source r <> Redirect.destination r
  /\ Redirect.deleted r = false.
Proof.
  validators input.
  destruct (src =? dst)%string eqn:E; [discriminate|].
  destruct del; [discriminate|].
  intros H. injection H as <-. cbn. repeat split.
  now apply String.eqb_neq.
Qed.

Lemma processSheetRow_deleted_throws (input : RawRedirectProps) :
  validateBoolean (Raw.deleted input) false = Throw ->
  processSheetRow input = None.
Proof. validators input. discriminate. Qed.

Lemma processSheetRow_deleted_true (input : RawRedirectProps) :
  validateBoolean (Raw.deleted input) false = Normal true ->
  processSheetRow input = None.
Proof.
  validators input. intros H. injection H as ->.
  now destruct (src =? dst)%string.
Qed.

(** The callback of [list] on a row that is marked deleted: nothing is
    returned and nothing is pushed. *)
Lemma listRow_deleted_true bad (row : RawRedirectProps) :
  validateBoolean (Raw.deleted row) false = Normal true ->
  listRow bad row = Normal ([], bad).
Proof.
  intros H. unfold listRow.
  rewrite (processSheetRow_deleted_true _ H), H. reflexivity.
Qed.

Lemma listRow_deleted_throws bad (row : RawRedirectProps) :
  validateBoolean (Raw.deleted row) false = Throw ->
  listRow bad row = Throw.
Proof.
  intros H. unfold listRow.
  rewrite (processSheetRow_deleted_throws _ H), H. reflexivity.
Qed.

Lemma listRow_bad bad row out bad' :
  Forall reportable bad ->
  listRow bad row = Normal (out, bad') ->
  Forall reportable bad'.
Proof.
  unfold listRow. intros Hbad H.
  destruct (processSheetRow row).
  - injection H as _ <-. exact Hbad.
  - destruct (validateBoolean (Raw.deleted row) false) as [b|] eqn:E; [|discriminate].
    cbn in H. injection H as _ <-.
    destruct b; cbn; [exact Hbad|].
    apply Forall_app. split; [exact Hbad|]. constructor; [exact E|constructor].
Qed.

Lemma listRows_bad inputRows : forall valid bad report,
  Forall reportable bad ->
  listRows inputRows valid bad = Normal report ->
  Forall reportable (badRows report).
Proof.
  induction inputRows as [|row rest IH]; intros valid bad report Hbad H; cbn in H.
  - injection H as <-. exact Hbad.
  - destruct (listRow bad row) as [[out bad']|] eqn:E; [|discriminate].
    cbn in H. eapply IH; [|exact H]. eapply listRow_bad; eassumption.
Qed.

Lemma listRows_skip_deleted row before : forall after valid bad,
  validateBoolean (Raw.deleted row) false = Normal true ->
  listRows (before ++ row :: after) valid bad = listRows (before ++ after) valid bad.
Proof.
  induction before as [|r before IH]; intros after valid bad H; cbn.
  - rewrite (listRow_deleted_true _ _ H). cbn. now rewrite app_nil_r.
  - destruct (listRow bad r) as [[out bad']|]; cbn; [|reflexivity].
    now apply IH.
Qed.

Lemma listRows_throws row inputRows : forall valid bad,
  In row inputRows ->
  validateBoolean (Raw.deleted row) false = Throw ->
  listRows inputRows valid bad = Throw.
Proof.
  induction inputRows as [|r rest IH]; intros valid bad Hin H; [destruct Hin|].
  cbn. destruct Hin as [->|Hin].
  - now rewrite (listRow_deleted_throws _ _ H).
  - destruct (listRow bad r) as [[out bad']|]; cbn; [|reflexivity].
    now apply IH.
Qed.

(** The redirects the commands expand, compare and publish: none is
    marked deleted. *)
Lemma validRedirects_not_deleted (inputRows : list RawRedirectProps) :
  Forall (fun r => Redirect.deleted r = false) (validRedirects inputRows).
Proof.
  unfold validRedirects. apply Forall_flat_map, Forall_forall.
  intros row _. destruct (processSheetRow row) as [r|] eqn:E; [|constructor].
  constructor; [|constructor]. now apply processSheetRow_Some in E.
Qed.

(** [diff] compares the list made from the valid rows with the list of
    Cloudflare. *)
Lemma diff_diffRules (makeBulkList : list RedirectProps -> list BulkRedirectListItem)
  (inputRows : list RawRedirectProps) (cloudflareList : list BulkRedirectListItem) :
  diff makeBulkList inputRows cloudflareList
  = diffRules (makeBulkList (validRedirects inputRows)) cloudflareList.
Proof. reflexivity. Qed.

End RowProcessorFacts.

(** C4. A row whose validated source equals its validated destination is
    rejected by [processSheetRow], whatever its other fields are (and
    whether or not they validate). *)
Theorem processSheetRow_self_redirect {V : Validators}
  (input : RawRedirectProps) (path : string) :
  validatePath (Raw.source input) = Normal path ->
  validatePath (Raw.destination input) = Normal path ->
  processSheetRow input = None.
Proof.
  intros Hs Hd. unfold processSheetRow, validateFields.
  rewrite Hs, Hd. cbn.
  destruct (validateCode (Raw.code input) C302); cbn; [|reflexivity].
  destruct (validateBoolean (Raw.localized input) true); cbn; [|reflexivity].
  destruct (validateBoolean (Raw.deleted input) false); cbn; [|reflexivity].
  now rewrite String.eqb_refl.
Qed.

(** [processRow({source: "/a", destination: "/a", code: 302})] is
    rejected. *)
Lemma processSheetRow_self_redirect_witness :
  let input := Raw.Build "/a" "/a" (CodeNumber 302) FlagAbsent FlagAbsent in
  validatePath (Raw.source input) = Normal "/a"
  /\ validatePath (Raw.destination input) = Normal "/a"
  /\ processSheetRow input = None.
Proof.
  cbv zeta. split; [reflexivity|]. split; [reflexivity|].
  apply (@processSheetRow_self_redirect SpecValidators _ "/a"); reflexivity.
Defined.

(** C10. Every record [processSheetRow] returns has [deleted] false. *)
Theorem processSheetRow_returns_not_deleted {V : Validators}
  (input : RawRedirectProps) (r : RedirectProps) :
  processSheetRow input = Some r ->
  Redirect.deleted r = false.
Proof. intros H. now apply processSheetRow_Some in H. Qed.

Lemma processSheetRow_returns_not_deleted_witness :
  let input := rawRow "/a" "/b" FlagAbsent (FlagString "FALSE") in
  let r := Redirect.Build "/a" "/b" C302 true false in
  processSheetRow input = Some r /\ Redirect.deleted r = false.
Proof.
  cbv zeta. split; [reflexivity|].
  apply (@processSheetRow_returns_not_deleted SpecValidators
           (rawRow "/a" "/b" FlagAbsent (FlagString "FALSE"))).
  reflexivity.
Defined.

(** C3. A row whose [deleted] field validates to true (in any encoding
    the validator accepts) is rejected by [processSheetRow], and [list]
    drops it without a trace: the report is the one of the sheet without
    that row, and the row is in no report's [badRows].  This holds
    whatever the other fields of the row are, valid or not. *)
Theorem deleted_row_excluded_from_badRows {V : Validators} (row : RawRedirectProps) :
  validateBoolean (Raw.deleted row) false = Normal true ->
  processSheetRow row = None
  /\ (forall before after,
        list_report (before ++ row :: after) = list_report (before ++ after))
  /\ (forall inputRows report,
        list_report inputRows = Normal report -> ~ In row (badRows report)).
Proof.
  intros H. split; [now apply processSheetRow_deleted_true|]. split.
  - intros before after. unfold list_report. now apply listRows_skip_deleted.
  - intros inputRows report Hrep Hin.
    apply listRows_bad in Hrep; [|constructor].
    rewrite Forall_forall in Hrep. specialize (Hrep _ Hin).
    unfold reportable in Hrep. congruence.
Qed.

Lemma deleted_row_excluded_from_badRows_witness :
  let row := rawRow "/old" "/new" FlagAbsent (FlagString "TRUE") in
  validateBoolean (Raw.deleted row) false = Normal true
  /\ processSheetRow row = None
  /\ list_report [rawRow "/x" "/x" FlagAbsent FlagAbsent; row]
     = list_report [rawRow "/x" "/x" FlagAbsent FlagAbsent].
Proof.
  cbv zeta. split; [reflexivity|].
  destruct (@deleted_row_excluded_from_badRows SpecValidators
              (rawRow "/old" "/new" FlagAbsent (FlagString "TRUE")) eq_refl)
    as (Hnull & Hskip & _).
  split; [exact Hnull|].
  exact (Hskip [rawRow "/x" "/x" FlagAbsent FlagAbsent] []).
Defined.

(** C2. A row whose [deleted] field makes [validateBoolean] throw is
    rejected by [processSheetRow]; but [list] validates that field again
    outside of the [try], so the command throws on any sheet with such a
    row and produces no report at all: the row is not counted as
    invalid. *)
Theorem garbage_deleted_row_aborts_list {V : Validators}
  (inputRows : list RawRedirectProps) (row : RawRedirectProps) :
  In row inputRows ->
  validateBoolean (Raw.deleted row) false = Throw ->
  processSheetRow row = None /\ list_report inputRows = Throw.
Proof.
  intros Hin H. split.
  - now apply processSheetRow_deleted_throws.
  - unfold list_report. eapply listRows_throws; eassumption.
Qed.

Lemma garbage_deleted_row_aborts_list_witness :
  let row := rawRow "/a" "/b" FlagAbsent (FlagString "banana") in
  In row [row]
  /\ validateBoolean (Raw.deleted row) false = Throw
  /\ processSheetRow row = None
  /\ list_report [row] = Throw.
Proof.
  cbv zeta. split; [now left|]. split; [reflexivity|].
  apply (@garbage_deleted_row_aborts_list SpecValidators); [now left|reflexivity].
Defined.

(** ** Expansion into list items *)

Section ExpansionFacts.

Context {site : Site}.

Lemma prefix_empty (s : string) : prefix "" s = true.
Proof. now destruct s. Qed.

Lemma prefix_slash (c : ascii) (rest : string) :
  prefix "/" (String c rest) = if ascii_dec "/" c then true else false.
Proof.
  change (prefix "/" (String c rest))
    with (if ascii_dec "/" c then prefix "" rest else false).
  destruct (ascii_dec "/" c); [apply prefix_empty|reflexivity].
Qed.

Lemma index_slash (c : ascii) (rest : string) :
  index 0 "/" (String c rest)
  = if ascii_dec "/" c then Some 0 else option_map S (index 0 "/" rest).
Proof.
  change (index 0 "/" (String c rest))
    with (if prefix "/" (String c rest) then Some 0
          else match index 0 "/" rest with
               | Some n => Some (S n)
               | None => None
               end).
  rewrite prefix_slash.
  destruct (ascii_dec "/" c); [reflexivity|].
  now destruct (index 0 "/" rest).
Qed.

(** [path.indexOf('/') === 0] tests the first character. *)
Lemma indexOf_slash_0 (path : string) :
  indexOf "/" path = 0%Z <-> hostRelative path.
Proof.
  unfold indexOf, hostRelative. destruct path as [|c rest].
  - cbn. split; [discriminate|]. intros [r H]. discriminate.
  - rewrite index_slash. destruct (ascii_dec "/" c) as [<-|Hc].
    + split; [eauto|reflexivity].
    + split.
      * destruct (index 0 "/" rest); cbn [option_map]; intros H; [lia|discriminate].
      * intros [r H]. injection H as -> _. now destruct Hc.
Qed.

Lemma makeFullURL_absolute (path : string) (locale : option string) :
  ~ hostRelative path -> makeFullURL path locale = path.
Proof.
  intros H. unfold makeFullURL.
  destruct (indexOf "/" path =? 0)%Z eqn:E; [|reflexivity].
  apply Z.eqb_eq, indexOf_slash_0 in E. contradiction.
Qed.

Lemma makeFullURL_relative (path : string) (locale : option string) :
  hostRelative path ->
  makeFullURL path locale
  = (DEFAULT_DEST_DOMAIN
       ++ (if truthy locale then localePrefix locale else "") ++ path)%string.
Proof.
  intros H. unfold makeFullURL.
  apply indexOf_slash_0 in H. now rewrite H.
Qed.

Lemma pushLocales_map (row : RedirectProps) (locales : list string) :
  pushLocales row locales
  = map (fun locale => makeRule row (Some locale)) (prefixLocales locales).
Proof.
  induction locales as [|locale rest IH]; cbn; [reflexivity|].
  destruct (locale =? "en-us")%string; cbn; now rewrite IH.
Qed.

Lemma processBulkList_one (row : RedirectProps) :
  processBulkList [row] = expandRow row.
Proof. unfold processBulkList. cbn. apply app_nil_r. Qed.

Lemma expandRow_localized (row : RedirectProps) :
  Redirect.localized row = true ->
  expandRow row
  = {| redirect := makeRule row None |}
      :: map (fun locale => {| redirect := makeRule row (Some locale) |})
             (prefixLocales SiteLocales).
Proof.
  intros H. unfold expandRow. rewrite H, pushLocales_map. cbn.
  now rewrite map_map.
Qed.

Lemma expandRow_target_absolute (row : RedirectProps) :
  ~ hostRelative (Redirect.destination row) ->
  Forall (fun item => target_url (redirect item) = Redirect.destination row)
         (expandRow row).
Proof.
  intros H. unfold expandRow. apply Forall_map.
  assert (Hl : forall locales,
             Forall (fun r => target_url r = Redirect.destination row)
                    (pushLocales row locales)).
  { induction locales as [|l rest IH]; cbn; [constructor|].
    destruct (l =? "en-us")%string; [exact IH|].
    constructor; [|exact IH]. cbn. now apply makeFullURL_absolute. }
  destruct (Redirect.localized row).
  - apply Forall_app. split; [|apply Hl].
    constructor; [|constructor]. cbn. now apply makeFullURL_absolute.
  - constructor; [|constructor]. cbn. now apply makeFullURL_absolute.
Qed.

(** An empty string given as the locale is no locale. *)
Lemma makeFullURL_empty_locale (path : string) :
  makeFullURL path (Some ""%string) = makeFullURL path None.
Proof. reflexivity. Qed.

End ExpansionFacts.

(** No locale of index.ts is the empty string, and a localized record
    expands to 22 items there: the base one and one per locale but
    en-us. *)
Lemma Locales_not_empty : Forall (fun locale => locale <> ""%string) Locales.
Proof. repeat constructor; discriminate. Qed.

Lemma expandRow_cli_length (domain : string) (row : RedirectProps) :
  Redirect.localized row = true ->
  length (@processBulkList (cliSite domain) [row]) = 22.
Proof.
  intros H. rewrite processBulkList_one, (expandRow_localized _ H). reflexivity.
Qed.

Lemma prefixLocales_no_default (locales : list string) :
  ~ In "en-us" (prefixLocales locales).
Proof.
  unfold prefixLocales. intros H. apply filter_In in H. destruct H as [_ H].
  discriminate.
Qed.

(** C5. [processBulkList] on the one record [row]: when [row] is
    localized, the base item, then one item per locale of the site's
    list in that list's order, en-us skipped, and no item is made for
    the locale en-us; with the locales de-de, en-us, es-es these are
    three items, base, de-de, es-es.  When [row] is not localized, the
    base item alone. *)
Theorem processBulkList_singleton {site : Site} (row : RedirectProps) :
  let base := {| redirect := makeRule row None |} in
  let item := fun locale => {| redirect := makeRule row (Some locale) |} in
  (Redirect.localized row = true ->
     processBulkList [row] = base :: map item (prefixLocales SiteLocales)
     /\ ~ In "en-us" (prefixLocales SiteLocales)
     /\ (SiteLocales = [ "de-de"; "en-us"; "es-es" ] ->
           processBulkList [row] = [ base; item "de-de"; item "es-es" ]))
  /\ (Redirect.localized row = false -> processBulkList [row] = [ base ]).
Proof.
  cbv zeta. split.
  - intros H. rewrite processBulkList_one, (expandRow_localized _ H).
    split; [reflexivity|]. split; [apply prefixLocales_no_default|].
    intros ->. reflexivity.
  - intros H. rewrite processBulkList_one. unfold expandRow. now rewrite H.
Qed.

(** [expandRecord({source: "/a", destination: "/b", code: 302,
    localized: true})] with the locales de-de, en-us, es-es. *)
Lemma processBulkList_singleton_witness :
  @processBulkList exampleSite [ Redirect.Build "/a" "/b" C302 true false ]
  = [ {| redirect := Build_Rule "https://www.example.com/a"
                                "https://www.example.com/b" C302 |};
      {| redirect := Build_Rule "https://www.example.com/de-de/a"
                                "https://www.example.com/de-de/b" C302 |};
      {| redirect := Build_Rule "https://www.example.com/es-es/a"
                                "https://www.example.com/es-es/b" C302 |} ].
Proof.
  destruct (@processBulkList_singleton exampleSite
              (Redirect.Build "/a" "/b" C302 true false)) as [H _].
  destruct (H eq_refl) as (_ & _ & H3).
  exact (H3 eq_refl).
Defined.

(** C6. [makeFullURL] leaves a path that does not start with a slash as
    it is, whatever the locale, so that no item of a record with such a
    destination has another target, localized or not; to a path that
    starts with a slash it prepends the default destination domain, with
    the locale after a slash in between when a locale is given (a locale
    being a non-empty string: the source tests it as a condition). *)
Theorem makeFullURL_resolve {site : Site} (path : string) :
  (~ hostRelative path ->
     (forall locale, makeFullURL path locale = path)
     /\ (forall row, Redirect.destination row = path ->
           Forall (fun item => target_url (redirect item) = path)
                  (processBulkList [row])))
  /\ (hostRelative path ->
        makeFullURL path None = (DEFAULT_DEST_DOMAIN ++ path)%string
        /\ (forall locale, locale <> ""%string ->
              makeFullURL path (Some locale)
              = (DEFAULT_DEST_DOMAIN ++ ("/" ++ locale) ++ path)%string)).
Proof.
  split.
  - intros H. split.
    + intros locale. now apply makeFullURL_absolute.
    + intros row <-. rewrite processBulkList_one.
      now apply expandRow_target_absolute.
  - intros H. split.
    + now rewrite makeFullURL_relative.
    + intros locale Hl. rewrite makeFullURL_relative by assumption.
      cbn. apply String.eqb_neq in Hl. now rewrite Hl.
Qed.

Lemma makeFullURL_resolve_witness :
  (~ hostRelative "https://other.example/x"
   /\ @makeFullURL exampleSite "https://other.example/x" (Some "de-de")
      = "https://other.example/x")
  /\ (hostRelative "/b"
      /\ @makeFullURL exampleSite "/b" None = "https://www.example.com/b"
      /\ @makeFullURL exampleSite "/b" (Some "de-de")
         = "https://www.example.com/de-de/b").
Proof.
  assert (Habs : ~ hostRelative "https://other.example/x").
  { intros [rest H]. discriminate. }
  assert (Hrel : hostRelative "/b") by (now exists "b"%string).
  split.
  - split; [exact Habs|].
    destruct (@makeFullURL_resolve exampleSite "https://other.example/x") as [H _].
    destruct (H Habs) as [H1 _]. exact (H1 (Some "de-de"%string)).
  - split; [exact Hrel|].
    destruct (@makeFullURL_resolve exampleSite "/b") as [_ H].
    destruct (H Hrel) as [H1 H2]. split; [exact H1|].
    apply H2. discriminate.
Defined.

(** ** Rule matcher and reconciler *)

Lemma RedirectCode_eqb_eq (a b : RedirectCode) :
  RedirectCode_eqb a b = true <-> a = b.
Proof. destruct a, b; cbn; split; intros H; congruence. Qed.

Lemma Rule_eqb_eq (a b : Rule) : Rule_eqb a b = true <-> a = b.
Proof.
  unfold Rule_eqb. rewrite !andb_true_iff, !String.eqb_eq, RedirectCode_eqb_eq.
  destruct a, b; cbn. split.
  - intros [[-> ->] ->]. reflexivity.
  - intros H. injection H as -> -> ->. auto.
Qed.

(** [ruleEquals] is the equality of the three fields, and so an
    equivalence. *)
Lemma ruleEquals_eq (a b : BulkRedirectListItem) :
  ruleEquals a b = true <-> a = b.
Proof.
  unfold ruleEquals. rewrite Rule_eqb_eq. destruct a, b; cbn. split.
  - intros ->. reflexivity.
  - intros H. now injection H.
Qed.

Lemma ruleEquals_refl (a : BulkRedirectListItem) : ruleEquals a a = true.
Proof. now apply ruleEquals_eq. Qed.

Lemma ruleEquals_neq (a b : BulkRedirectListItem) :
  a <> b -> ruleEquals a b = false.
Proof.
  intros H. destruct (ruleEquals a b) eqn:E; [|reflexivity].
  apply ruleEquals_eq in E. contradiction.
Qed.

Lemma ruleInList_In (rule : BulkRedirectListItem) (list : list BulkRedirectListItem) :
  ruleInList rule list = true <-> In rule list.
Proof.
  unfold ruleInList. rewrite existsb_exists. split.
  - intros [x [Hx H]]. apply ruleEquals_eq in H. now subst.
  - intros H. exists rule. split; [exact H|apply ruleEquals_refl].
Qed.

Lemma filter_not_ruleInList_In (keep from : list BulkRedirectListItem)
  (rule : BulkRedirectListItem) :
  In rule (filter (fun r => negb (ruleInList r keep)) from)
  <-> In rule from /\ ~ In rule keep.
Proof.
  rewrite filter_In, negb_true_iff, <- (ruleInList_In rule keep).
  destruct (ruleInList rule keep); intuition congruence.
Qed.

Lemma filter_not_ruleInList_self (X : list BulkRedirectListItem) :
  filter (fun r => negb (ruleInList r X)) X = [].
Proof.
  assert (H : forall l, incl l X -> filter (fun r => negb (ruleInList r X)) l = []).
  { induction l as [|x l IH]; intros Hincl; cbn; [reflexivity|].
    assert (Hx : ruleInList x X = true).
    { apply ruleInList_In, Hincl. now left. }
    rewrite Hx. cbn. apply IH. intros y Hy. apply Hincl. now right. }
  apply H, incl_refl.
Qed.

(** C7. The two lists of [diff] are the set differences of its two
    lists under [ruleEquals], each in the order of the list it is
    filtered from; a list has no difference with itself, and
    [diff([A,B], [B,C])] adds [A] and removes [C] for distinct rules. *)
Theorem diffRules_set_difference (desired current : list BulkRedirectListItem) :
  (removedRules (diffRules desired current)
     = filter (fun c => negb (ruleInList c desired)) current
   /\ addedRules (diffRules desired current)
     = filter (fun d => negb (ruleInList d current)) desired)
  /\ (forall rule,
        (In rule (addedRules (diffRules desired current))
           <-> In rule desired /\ ~ In rule current)
        /\ (In rule (removedRules (diffRules desired current))
           <-> In rule current /\ ~ In rule desired))
  /\ diffRules desired desired = {| addedRules := []; removedRules := [] |}
  /\ (forall A B C, A <> B -> A <> C -> B <> C ->
        diffRules [A; B] [B; C] = {| addedRules := [A]; removedRules := [C] |}).
Proof.
  split; [split; reflexivity|]. split; [|split].
  - intros rule. split; apply filter_not_ruleInList_In.
  - unfold diffRules. now rewrite filter_not_ruleInList_self.
  - intros A B C HAB HAC HBC. unfold diffRules, ruleInList. cbn.
    rewrite !ruleEquals_refl.
    rewrite (ruleEquals_neq HAB), (ruleEquals_neq HAC).
    rewrite (ruleEquals_neq (not_eq_sym HAB)), (ruleEquals_neq (not_eq_sym HAC)).
    rewrite (ruleEquals_neq (not_eq_sym HBC)).
    reflexivity.
Qed.

Lemma diffRules_set_difference_witness :
  let A := {| redirect := Build_Rule "https://www.example.com/a" "https://www.example.com/x" C301 |} in
  let B := {| redirect := Build_Rule "https://www.example.com/b" "https://www.example.com/x" C301 |} in
  let C := {| redirect := Build_Rule "https://www.example.com/b" "https://www.example.com/x" C302 |} in
  (A <> B /\ A <> C /\ B <> C)
  /\ diffRules [A; B] [B; C] = {| addedRules := [A]; removedRules := [C] |}.
Proof.
  cbv zeta.
  assert (H : forall a b, ruleEquals a b = false -> a <> b).
  { intros a b E Hab. apply ruleEquals_eq in Hab. congruence. }
  assert (HAB := H _ _ (eq_refl :
    ruleEquals {| redirect := Build_Rule "https://www.example.com/a" "https://www.example.com/x" C301 |}
               {| redirect := Build_Rule "https://www.example.com/b" "https://www.example.com/x" C301 |}
    = false)).
  assert (HAC := H _ _ (eq_refl :
    ruleEquals {| redirect := Build_Rule "https://www.example.com/a" "https://www.example.com/x" C301 |}
               {| redirect := Build_Rule "https://www.example.com/b" "https://www.example.com/x" C302 |}
    = false)).
  assert (HBC := H _ _ (eq_refl :
    ruleEquals {| redirect := Build_Rule "https://www.example.com/b" "https://www.example.com/x" C301 |}
               {| redirect := Build_Rule "https://www.example.com/b" "https://www.example.com/x" C302 |}
    = false)).
  split; [now repeat split|].
  destruct (diffRules_set_difference [] []) as (_ & _ & _ & Hex).
  exact (Hex _ _ _ HAB HAC HBC).
Defined.

(** ** Batch publisher *)

Section SliceFacts.

Context {A : Type}.

Lemma slice_firstn_skipn (a b : nat) (l : list A) :
  slice a b l = firstn (b - a) (skipn a l).
Proof. unfold slice. apply skipn_firstn_comm. Qed.

Lemma length_slice (a b : nat) (l : list A) :
  length (slice a b l) = Nat.min b (length l) - a.
Proof. unfold slice. now rewrite length_skipn, length_firstn. Qed.

Lemma firstn_add (x y : nat) : forall l : list A,
  firstn x l ++ firstn y (skipn x l) = firstn (x + y) l.
Proof.
  induction x as [|x IH]; intros l; [reflexivity|].
  destruct l as [|e l]; cbn.
  - now rewrite firstn_nil.
  - now rewrite IH.
Qed.

Lemma skipn_add (x y : nat) : forall l : list A,
  skipn y (skipn x l) = skipn (x + y) l.
Proof.
  induction x as [|x IH]; intros l; [reflexivity|].
  destruct l as [|e l]; cbn; [apply skipn_nil|apply IH].
Qed.

(** Two adjacent slices make one. *)
Lemma slice_app (a b c : nat) (l : list A) :
  a <= b -> b <= c -> slice a b l ++ slice b c l = slice a c l.
Proof.
  intros Hab Hbc. rewrite !slice_firstn_skipn.
  replace (skipn b l) with (skipn (b - a) (skipn a l))
    by (rewrite skipn_add; f_equal; lia).
  rewrite firstn_add. f_equal. lia.
Qed.

End SliceFacts.

Section BatchFacts.

Lemma batchCount_lt (len j : nat) : j < batchCount len <-> j * batch < len.
Proof.
  unfold batchCount, batch. cbn [Nat.sub].
  pose proof (Nat.div_mod_eq (len + 999) 1000) as Hd.
  pose proof (Nat.mod_upper_bound (len + 999) 1000) as Hm.
  lia.
Qed.

Context {A : Type}.

Lemma concat_batches (l : list A) (m : nat) : forall j,
  concat (map (batchAt l) (seq j m)) = slice (j * batch) ((j + m) * batch) l.
Proof.
  induction m as [|m IH]; intros j.
  - cbn [seq map concat]. rewrite Nat.add_0_r, slice_firstn_skipn, Nat.sub_diag.
    reflexivity.
  - cbn [seq map concat]. rewrite IH. unfold batchAt.
    replace (S j * batch) with (j * batch + batch) by lia.
    rewrite slice_app by lia.
    f_equal. lia.
Qed.

(** The batches of a list are a partition of it that keeps its order. *)
Lemma concat_batchesOf (l : list A) : concat (batchesOf l) = l.
Proof.
  unfold batchesOf. rewrite concat_batches. unfold slice. cbn [skipn Nat.mul].
  apply firstn_all2.
  pose proof (proj2 (batchCount_lt (length l) (batchCount (length l)))) as H.
  cbn [Nat.add]. lia.
Qed.

Lemma length_batchesOf (l : list A) :
  length (batchesOf l) = batchCount (length l).
Proof. unfold batchesOf. now rewrite length_map, length_seq. Qed.

Lemma nth_batchesOf (l : list A) (j : nat) :
  j < batchCount (length l) -> nth j (batchesOf l) [] = batchAt l j.
Proof.
  intros H. unfold batchesOf.
  rewrite (nth_indep _ [] (batchAt l 0)) by (now rewrite length_map, length_seq).
  rewrite (map_nth (batchAt l)), seq_nth by assumption. reflexivity.
Qed.

(** Every batch but the last has 1000 entries, and the last has between
    1 and 1000. *)
Lemma length_batchAt (l : list A) (j : nat) :
  j < batchCount (length l) ->
  1 <= length (batchAt l j) <= batch
  /\ (S j < batchCount (length l) -> length (batchAt l j) = batch).
Proof.
  intros H. unfold batchAt. rewrite length_slice.
  apply batchCount_lt in H. split; [unfold batch in *; lia|].
  intros H'. apply batchCount_lt in H'. unfold batch in *. lia.
Qed.

End BatchFacts.

Section PublishFacts.

Context {World : Type} {remote : Collaborators World}.

Lemma uploads_app (l1 l2 : list Call) :
  uploads (l1 ++ l2) = uploads l1 ++ uploads l2.
Proof.
  induction l1 as [|c l1 IH]; [reflexivity|].
  destruct c; cbn; now rewrite IH.
Qed.

Lemma truncations_app (l1 l2 : list Call) :
  truncations (l1 ++ l2) = truncations l1 ++ truncations l2.
Proof.
  induction l1 as [|c l1 IH]; [reflexivity|].
  destruct c; cbn; now rewrite IH.
Qed.

(** One pass of the loop of [publish], and its exit. *)
Lemma uploadLoop_step (bulkList : list BulkRedirectListItem) (n i : nat)
  (results : list bool) (st : State World) :
  n < length bulkList ->
  uploadLoop bulkList n i results st
  = uploadLoop bulkList (n + batch) (S i)
      (results ++ [fst (uploadBatch (S i) (slice n (n + batch) bulkList) st)])
      (snd (uploadBatch (S i) (slice n (n + batch) bulkList) st)).
Proof.
  intros H. rewrite uploadLoop_equation_1.
  destruct (lt_dec n (length bulkList)); [reflexivity|contradiction].
Qed.

Lemma uploadLoop_exit (bulkList : list BulkRedirectListItem) (n i : nat)
  (results : list bool) (st : State World) :
  ~ n < length bulkList ->
  uploadLoop bulkList n i results st = (results, st).
Proof.
  intros H. rewrite uploadLoop_equation_1.
  destruct (lt_dec n (length bulkList)); [contradiction|reflexivity].
Qed.

(** The loop uploads the batches of the list, one pass per batch. *)
Lemma uploadLoop_uploadBatches (bulkList : list BulkRedirectListItem) (m : nat) :
  forall j results st,
    j + m = batchCount (length bulkList) ->
    uploadLoop bulkList (j * batch) j results st
    = uploadBatches (map (batchAt bulkList) (seq j m)) j results st.
Proof.
  induction m as [|m IH]; intros j results st Hj.
  - apply uploadLoop_exit. rewrite <- batchCount_lt. lia.
  - rewrite uploadLoop_step by (apply batchCount_lt; lia).
    cbn [seq map uploadBatches].
    change (batchAt bulkList j) with (slice (j * batch) (j * batch + batch) bulkList).
    rewrite <- IH by lia.
    replace (S j * batch) with (j * batch + batch) by lia. reflexivity.
Qed.

Lemma uploadLoop_batchesOf (bulkList : list BulkRedirectListItem) (st : State World) :
  uploadLoop bulkList 0 0 [] st = uploadBatches (batchesOf bulkList) 0 [] st.
Proof.
  apply (uploadLoop_uploadBatches bulkList (batchCount (length bulkList)) 0).
  reflexivity.
Qed.

(** What [uploadBatch] adds to the log: the upload, then at most the
    polling of its bulk operation. *)
Lemma uploadBatch_log (i : nat) (batchList : list BulkRedirectListItem)
  (st : State World) :
  exists polls,
    snd (snd (uploadBatch i batchList st))
    = snd st ++ UploadBulkList batchList (fst (uploadBulkList batchList (fst st))) :: polls
    /\ uploads polls = [] /\ truncations polls = [].
Proof.
  destruct st as [w log]. unfold uploadBatch, bind, await, ret. cbn [fst snd].
  destruct (uploadBulkList batchList w) as [uploadResponse w']. cbn [fst snd].
  destruct (truthy (bulkOperationsId uploadResponse)).
  - match goal with
    | |- context [getBulkOpsStatus ?id ?x] =>
        destruct (getBulkOpsStatus id x) as [ok w'']
    end.
    eexists. split.
    + destruct ok; cbn [fst snd]; rewrite <- app_assoc; reflexivity.
    + split; reflexivity.
  - exists []. cbn [fst snd]. repeat split.
Qed.

Lemma uploadBatches_log (batches : list (list BulkRedirectListItem)) :
  forall i results (st : State World),
    uploads (snd (snd (uploadBatches batches i results st)))
    = uploads (snd st) ++ batches
    /\ truncations (snd (snd (uploadBatches batches i results st)))
       = truncations (snd st)
    /\ length (fst (uploadBatches batches i results st))
       = length results + length batches.
Proof.
  induction batches as [|b rest IH]; intros i results st; cbn [uploadBatches].
  - cbn [fst snd length]. rewrite app_nil_r. repeat split. lia.
  - destruct (IH (S i) (results ++ [fst (uploadBatch (S i) b st)])
                (snd (uploadBatch (S i) b st))) as (Hu & Ht & Hl).
    destruct (uploadBatch_log (S i) b st) as (polls & Hlog & Hpu & Hpt).
    rewrite Hu, Ht, Hl, Hlog.
    rewrite uploads_app, truncations_app. cbn [uploads truncations].
    rewrite Hpu, Hpt, app_nil_r, <- app_assoc, length_app. cbn [length app].
    repeat split. lia.
Qed.

Context {V : Validators}.

Variable makeBulkList : list RedirectProps -> list BulkRedirectListItem.

(** A run of [publish]: the fetch and the truncation, then every batch,
    then the description; the run does not depend on what the truncation
    resolved to other than through the world it leaves. *)
Lemma publishRun_unfold (w : World) :
  let looped := uploadBatches (batchesOf (bulkListOf makeBulkList w)) 0 []
                              (afterTruncate w) in
  let description :=
    ("Updated by Directomatic on " ++ Date (fst (snd looped)))%string in
  let described := setListDescription description (fst (snd looped)) in
  publishRun makeBulkList w
  = (fst looped,
     (snd described,
      snd (snd looped) ++ [SetListDescription description (fst described)])).
Proof.
  cbv zeta. unfold publishRun, publish, bind, await, afterTruncate, bulkListOf.
  cbn [fst snd app].
  destruct (fetchRedirectRows w) as [inputRows w1]. cbn [fst snd].
  destruct (emptyBulkList w1) as [ok w2]. cbn [fst snd].
  rewrite uploadLoop_batchesOf.
  destruct (uploadBatches _ 0 [] _) as [results [w3 log]]. cbn [fst snd].
  destruct (setListDescription _ w3) as [ok' w4]. reflexivity.
Qed.

(** The uploads, the truncations and the results of a run. *)
Lemma publishRun_log (w : World) :
  uploads (snd (snd (publishRun makeBulkList w)))
  = batchesOf (bulkListOf makeBulkList w)
  /\ truncations (snd (snd (publishRun makeBulkList w)))
     = [fst (emptyBulkList (snd (fetchRedirectRows w)))]
  /\ length (fst (publishRun makeBulkList w))
     = batchCount (length (bulkListOf makeBulkList w)).
Proof.
  rewrite publishRun_unfold. cbn [fst snd].
  destruct (uploadBatches_log (batchesOf (bulkListOf makeBulkList w)) 0 []
              (afterTruncate w)) as (Hu & Ht & Hl).
  rewrite uploads_app, truncations_app, Hu, Ht, Hl, length_batchesOf.
  cbn. rewrite !app_nil_r. repeat split.
Qed.

End PublishFacts.

Lemma batchesOf_nil {A} (l : list A) : batchesOf l = [] <-> l = [].
Proof.
  split.
  - intros H. apply (f_equal (@length _)) in H.
    rewrite length_batchesOf in H. cbn [length] in H.
    pose proof (batchCount_lt (length l) 0) as Hlt.
    destruct l as [|x l]; [reflexivity|]. cbn [length] in *. lia.
  - intros ->. reflexivity.
Qed.

(** C9. The outcome of [uploadBatch]: with a bulk operation id in the
    response (a non-empty string, as the source tests it), what
    [getBulkOpsStatus] resolves to for that id, whatever the [success]
    flag of the response; without one, the [success] flag, false when
    the response has none. *)
Theorem uploadBatch_outcome {World : Type} {remote : Collaborators World}
  (i : nat) (batchList : list BulkRedirectListItem) (w : World) (log : list Call) :
  (forall id, bulkOperationsId (fst (uploadBulkList batchList w)) = Some id ->
              id <> ""%string ->
     fst (uploadBatch i batchList (w, log))
     = fst (getBulkOpsStatus id (snd (uploadBulkList batchList w))))
  /\ (bulkOperationsId (fst (uploadBulkList batchList w)) = None ->
     fst (uploadBatch i batchList (w, log))
     = match success (fst (uploadBulkList batchList w)) with
       | Some flag => flag
       | None => false
       end).
Proof.
  unfold uploadBatch, bind, await, ret. cbn [fst snd].
  destruct (uploadBulkList batchList w) as [uploadResponse w']. cbn [fst snd].
  split.
  - intros id Hid Hne. rewrite Hid. cbn [truthy].
    apply String.eqb_neq in Hne. rewrite Hne. cbn [negb].
    match goal with
    | |- context [getBulkOpsStatus id ?x] =>
        change x with w'; destruct (getBulkOpsStatus id w') as [ok w'']
    end.
    now destruct ok.
  - intros Hid. rewrite Hid. cbn [truthy].
    now destruct (success uploadResponse) as [[|]|].
Qed.

(** An empty string as the id of the bulk operation is no id: nothing is
    polled. *)
Lemma uploadBatch_empty_id {World : Type} {remote : Collaborators World}
  (i : nat) (batchList : list BulkRedirectListItem) (w : World) (log : list Call) :
  bulkOperationsId (fst (uploadBulkList batchList w)) = Some ""%string ->
  uploadBatch i batchList (w, log)
  = (match success (fst (uploadBulkList batchList w)) with
     | Some flag => flag
     | None => false
     end,
     (snd (uploadBulkList batchList w),
      log ++ [UploadBulkList batchList (fst (uploadBulkList batchList w))])).
Proof.
  unfold uploadBatch, bind, await, ret. cbn [fst snd].
  destruct (uploadBulkList batchList w) as [uploadResponse w']. cbn [fst snd].
  intros ->. cbn [truthy String.eqb negb].
  now destruct (success uploadResponse) as [[|]|].
Qed.

(** An upload that answers [success: true] with a bulk operation that
    then fails, and an upload that answers with neither. *)
Lemma uploadBatch_outcome_witness :
  let polled := {| sheet := []; truncateOk := true;
                   uploadResponses := [ response (Some true) (Some "5f3a") ];
                   operationOk := false |} in
  let bare := {| sheet := []; truncateOk := true;
                 uploadResponses := [ response None None ];
                 operationOk := true |} in
  fst (uploadBatch 1 [] (polled, [])) = false
  /\ fst (uploadBatch 1 [] (bare, [])) = false.
Proof.
  cbv zeta. split.
  - refine (proj1 (@uploadBatch_outcome Script Scripted 1 []
                     {| sheet := []; truncateOk := true;
                        uploadResponses := [ response (Some true) (Some "5f3a") ];
                        operationOk := false |} [])
                  "5f3a"%string eq_refl _).
    discriminate.
  - exact (proj2 (@uploadBatch_outcome Script Scripted 1 []
                    {| sheet := []; truncateOk := true;
                       uploadResponses := [ response None None ];
                       operationOk := true |} [])
                 eq_refl).
Defined.

(** C8. Whatever the remote side answers, the batches [publish] submits
    are the consecutive slices of 1000 entries of the list, in order:
    together they are the list, each has between 1 and 1000 entries and
    each but the last has 1000; the results are the outcomes of
    [uploadBatch] on each of them in turn, one per batch, failed or not.
    A list of 2500 entries is submitted in 3 uploads, the last one of
    500 entries. *)
Theorem publish_batches {V : Validators} {World : Type} {remote : Collaborators World}
  (makeBulkList : list RedirectProps -> list BulkRedirectListItem) (w : World) :
  let bulkList := bulkListOf makeBulkList w in
  let run := publishRun makeBulkList w in
  let submitted := uploads (snd (snd run)) in
  submitted = batchesOf bulkList
  /\ concat submitted = bulkList
  /\ length submitted = batchCount (length bulkList)
  /\ (forall j, j < length submitted ->
        1 <= length (nth j submitted []) <= 1000
        /\ (S j < length submitted -> length (nth j submitted []) = 1000))
  /\ fst run = fst (uploadBatches submitted 0 [] (afterTruncate w))
  /\ length (fst run) = length submitted
  /\ (length bulkList = 2500 ->
        length submitted = 3 /\ length (last submitted []) = 500).
Proof.
  cbv zeta.
  destruct (publishRun_log makeBulkList w) as (Hu & _ & Hl).
  rewrite Hu, Hl, length_batchesOf.
  split; [reflexivity|]. split; [apply concat_batchesOf|].
  split; [reflexivity|]. split; [|split; [|split; [reflexivity|]]].
  - intros j Hj. rewrite nth_batchesOf by assumption.
    apply (length_batchAt (bulkListOf makeBulkList w) Hj).
  - now rewrite publishRun_unfold.
  - intros H. unfold batchesOf. rewrite H.
    change (batchCount 2500) with 3. split; [reflexivity|].
    cbn [seq map last]. unfold batchAt. rewrite length_slice, H.
    reflexivity.
Qed.

(** A sheet of 2500 redirects: three uploads, the last of 500 entries,
    the second and the third after the first has failed. *)
Lemma publish_batches_witness :
  let run := publishRun (@processBulkList exampleSite) firstBatchFails in
  length (bulkListOf (@processBulkList exampleSite) firstBatchFails) = 2500
  /\ length (uploads (snd (snd run))) = 3
  /\ length (last (uploads (snd (snd run))) []) = 500
  /\ fst run = [ false; true; true ].
Proof.
  cbv zeta.
  assert (H : length (bulkListOf (@processBulkList exampleSite) firstBatchFails) = 2500)
    by (vm_compute; reflexivity).
  split; [exact H|].
  destruct (@publish_batches SpecValidators Script Scripted
              (@processBulkList exampleSite) firstBatchFails)
    as (_ & _ & _ & _ & _ & _ & H2500).
  destruct (H2500 H) as [H3 H500].
  split; [exact H3|]. split; [exact H500|].
  vm_compute. reflexivity.
Defined.

(** C1, as the code has it.  [publish] awaits [emptyBulkList] and drops
    what it resolves to: a run whose truncation fails goes on as any
    other run, submits every batch of the list (no upload only if the
    list is empty) and ends with the call of [setListDescription]. *)
Theorem publish_ignores_failed_truncate {V : Validators} {World : Type}
  {remote : Collaborators World}
  (makeBulkList : list RedirectProps -> list BulkRedirectListItem) (w : World) :
  truncations (snd (snd (publishRun makeBulkList w))) = [ false ] ->
  uploads (snd (snd (publishRun makeBulkList w)))
    = batchesOf (bulkListOf makeBulkList w)
  /\ length (uploads (snd (snd (publishRun makeBulkList w))))
     = batchCount (length (bulkListOf makeBulkList w))
  /\ (uploads (snd (snd (publishRun makeBulkList w))) = []
      <-> bulkListOf makeBulkList w = [])
  /\ exists description ok,
       last (snd (snd (publishRun makeBulkList w))) (EmptyBulkList false)
       = SetListDescription description ok.
Proof.
  intros _.
  destruct (publishRun_log makeBulkList w) as (Hu & _ & _).
  rewrite Hu, length_batchesOf.
  split; [reflexivity|]. split; [reflexivity|]. split; [apply batchesOf_nil|].
  rewrite publishRun_unfold. cbn [fst snd].
  eexists _, _. apply last_last.
Qed.

Lemma publish_ignores_failed_truncate_witness :
  let run := publishRun (@processBulkList exampleSite) truncateFails in
  truncations (snd (snd run)) = [ false ]
  /\ uploads (snd (snd run))
     = batchesOf (bulkListOf (@processBulkList exampleSite) truncateFails).
Proof.
  cbv zeta.
  assert (H : truncations
                (snd (snd (publishRun (@processBulkList exampleSite) truncateFails)))
              = [ false ]) by (vm_compute; reflexivity).
  split; [exact H|].
  exact (proj1 (@publish_ignores_failed_truncate SpecValidators Script Scripted
                  (@processBulkList exampleSite) truncateFails H)).
Defined.

(** C1, as the specification has it, fails: the truncation of this run
    resolves to false, and the run submits a batch all the same. *)
Lemma publish_uploads_after_failed_truncate :
  let run := publishRun (@processBulkList exampleSite) truncateFails in
  truncations (snd (snd run)) = [ false ]
  /\ uploads (snd (snd run))
     = [ [ {| redirect := Build_Rule "https://www.example.com/old"
                                      "https://www.example.com/new" C302 |} ] ]
  /\ length (uploads (snd (snd run))) <> 0.
Proof.
  vm_compute. split; [reflexivity|]. split; [reflexivity|]. discriminate.
Qed.

(** * Further properties of the code *)

(** ** Row processor and [list] *)

Section RowProcessorMore.

Context {V : Validators}.

Lemma processSheetRow_intro (input : RawRedirectProps) (r : RedirectProps) :
  validatePath (Raw.source input) = Normal (Redirect.source r) ->
  validatePath (Raw.destination input) = Normal (Redirect.destination r) ->
  validateCode (Raw.code input) C302 = Normal (Redirect.code r) ->
  validateBoolean (Raw.localized input) true = Normal (Redirect.localized r) ->
  validateBoolean (Raw.deleted input) false = Normal false ->
  Redirect.deleted r = false ->
  Redirect.source r <> Redirect.destination r ->
  processSheetRow input = Some r.
Proof.
  intros Hs Hd Hc Hl Hx Hr Hne. unfold processSheetRow, validateFields.
  rewrite Hs, Hd, Hc, Hl, Hx. cbn.
  apply String.eqb_neq in Hne. rewrite Hne.
  destruct r as [s d c l x]. cbn in Hr. now subst x.
Qed.

Lemma processSheetRow_elim (input : RawRedirectProps) (r : RedirectProps) :
  processSheetRow input = Some r ->
  validateCode (Raw.code input) C302 = Normal (Redirect.code r)
  /\ validateBoolean (Raw.localized input) true = Normal (Redirect.localized r).
Proof.
  unfold processSheetRow, validateFields.
  destruct (validatePath (Raw.source input)) as [s|]; cbn; [|discriminate].
  destruct (validatePath (Raw.destination input)) as [d|]; cbn; [|discriminate].
  destruct (validateCode (Raw.code input) C302) as [c|]; cbn; [|discriminate].
  destruct (validateBoolean (Raw.localized input) true) as [l|]; cbn; [|discriminate].
  destruct (validateBoolean (Raw.deleted input) false) as [x|]; cbn; [|discriminate].
  destruct (s =? d)%string; [discriminate|]. destruct x; [discriminate|].
  intros H. injection H as <-. now split.
Qed.

Lemma In_validRedirects (inputRows : list RawRedirectProps) (r : RedirectProps) :
  In r (validRedirects inputRows)
  <-> exists row, In row inputRows /\ processSheetRow row = Some r.
Proof.
  unfold validRedirects. rewrite in_flat_map. split.
  - intros (row & Hin & H). exists row. split; [exact Hin|].
    destruct (processSheetRow row) as [r'|]; [|destruct H].
    destruct H as [->|[]]. reflexivity.
  - intros (row & Hin & H). exists row. split; [exact Hin|].
    rewrite H. now left.
Qed.

Lemma length_validRedirects (inputRows : list RawRedirectProps) :
  length (validRedirects inputRows) <= length inputRows.
Proof.
  induction inputRows as [|row rest IH]; [constructor|].
  unfold validRedirects in *. cbn [flat_map]. rewrite length_app. cbn [length].
  destruct (processSheetRow row); cbn [length]; lia.
Qed.

(** The callback of [list], case by case. *)
Lemma listRow_cases bad (row : RawRedirectProps) :
  (exists r, processSheetRow row = Some r /\ listRow bad row = Normal ([r], bad))
  \/ (processSheetRow row = None /\ isBadRow row = true
      /\ isDeletedRow row = false /\ listRow bad row = Normal ([], bad ++ [row]))
  \/ (processSheetRow row = None /\ isBadRow row = false
      /\ isDeletedRow row = true /\ listRow bad row = Normal ([], bad))
  \/ (processSheetRow row = None /\ listRow bad row = Throw
      /\ validateBoolean (Raw.deleted row) false = Throw).
Proof.
  unfold listRow, isBadRow, isDeletedRow.
  destruct (processSheetRow row) as [r|] eqn:E.
  - left. eauto.
  - right. destruct (validateBoolean (Raw.deleted row) false) as [[|]|]; cbn; auto 10.
Qed.

Lemma isBadRow_valid (row : RawRedirectProps) (r : RedirectProps) :
  processSheetRow row = Some r -> isBadRow row = false /\ isDeletedRow row = false.
Proof.
  intros H. unfold isBadRow, isDeletedRow. rewrite H.
  apply processSheetRow_Some in H. destruct H as (_ & _ & Hd & _ & Hf).
  rewrite Hd, Hf. now split.
Qed.

(** What [list] has collected when it returns. *)
Lemma listRows_report (inputRows : list RawRedirectProps) :
  forall valid bad report,
    listRows inputRows valid bad = Normal report ->
    redirectsList report = valid ++ validRedirects inputRows
    /\ badRows report = bad ++ filter isBadRow inputRows
    /\ length valid + length bad + length inputRows
       = length (redirectsList report) + length (badRows report)
         + length (filter isDeletedRow inputRows).
Proof.
  induction inputRows as [|row rest IH]; intros valid bad report H.
  - cbn in H. injection H as <-. cbn. rewrite !app_nil_r. repeat split; lia.
  - cbn [listRows] in H. unfold validRedirects. cbn [flat_map filter length].
    destruct (listRow_cases bad row)
      as [(r & Hr & E)|[(Hr & Hb & Hd & E)|[(Hr & Hb & Hd & E)|(Hr & E & _)]]];
      rewrite E in H; cbn [bindC fst snd] in H; [| | |discriminate];
      apply IH in H; destruct H as (H1 & H2 & H3);
      rewrite ?length_app in H3; cbn [length] in H3.
    + destruct (isBadRow_valid _ Hr) as [Hb Hd]. rewrite Hr, Hb, Hd.
      split; [rewrite H1, <- app_assoc; reflexivity|].
      split; [exact H2|lia].
    + rewrite Hr, Hb, Hd.
      split; [rewrite H1, app_nil_r; reflexivity|].
      split; [rewrite H2, <- app_assoc; reflexivity|lia].
    + rewrite Hr, Hb, Hd.
      split; [rewrite H1, app_nil_r; reflexivity|].
      split; [exact H2|cbn [length]; lia].
Qed.

Lemma listRows_Throw (inputRows : list RawRedirectProps) :
  forall valid bad,
    listRows inputRows valid bad = Throw ->
    Exists (fun row => validateBoolean (Raw.deleted row) false = Throw) inputRows.
Proof.
  induction inputRows as [|row rest IH]; intros valid bad H; [discriminate|].
  cbn [listRows] in H.
  destruct (listRow_cases bad row)
    as [(r & Hr & E)|[(Hr & Hb & Hd & E)|[(Hr & Hb & Hd & E)|(Hr & E & Ht)]]];
    rewrite E in H; cbn [bindC fst snd] in H;
    try (apply Exists_cons_tl; eapply IH; exact H).
  now apply Exists_cons_hd.
Qed.

End RowProcessorMore.

(** X1. [processSheetRow] accepts a row exactly when the five validators
    return (the code with 302, [localized] with true and [deleted] with
    false as defaults), the validated source and destination differ and
    the validated [deleted] is false; the record it returns holds the
    validated values. *)
Theorem processSheetRow_accepts_iff {V : Validators}
  (input : RawRedirectProps) (r : RedirectProps) :
  processSheetRow input = Some r
  <-> validatePath (Raw.source input) = Normal (Redirect.source r)
      /\ validatePath (Raw.destination input) = Normal (Redirect.destination r)
      /\ validateCode (Raw.code input) C302 = Normal (Redirect.code r)
      /\ validateBoolean (Raw.localized input) true = Normal (Redirect.localized r)
      /\ validateBoolean (Raw.deleted input) false = Normal false
      /\ Redirect.deleted r = false
      /\ Redirect.source r <> Redirect.destination r.
Proof.
  split.
  - intros H. destruct (processSheetRow_elim _ H) as [Hc Hl].
    apply processSheetRow_Some in H. destruct H as (Hs & Hd & Hx & Hne & Hf).
    rewrite Hf in Hx. now repeat split.
  - intros (Hs & Hd & Hc & Hl & Hx & Hf & Hne).
    now apply processSheetRow_intro.
Qed.

(** X2. The redirects the commands work on ([validRedirects], the
    [flatMap] of [diff] and [publish]) are at most as many as the rows
    of the sheet, and each of them is what [processSheetRow] returned
    for a row of the sheet, with a source other than its destination and
    not marked deleted. *)
Theorem validRedirects_sound {V : Validators} (inputRows : list RawRedirectProps) :
  length (validRedirects inputRows) <= length inputRows
  /\ Forall (fun r =>
               (exists row, In row inputRows /\ processSheetRow row = Some r)
               /\ Redirect.source r <> Redirect.destination r
               /\ Redirect.deleted r = false)
            (validRedirects inputRows).
Proof.
  split; [apply length_validRedirects|].
  apply Forall_forall. intros r Hin. apply In_validRedirects in Hin.
  destruct Hin as (row & Hin & H). split; [eauto|].
  apply processSheetRow_Some in H. tauto.
Qed.

(** X3. When [list] returns, its valid redirects are those [diff] and
    [publish] work on, in the order of the sheet, and its rows with
    errors are the rejected rows whose [deleted] field validates to
    false, in the order of the sheet. *)
Theorem list_report_lists {V : Validators}
  (inputRows : list RawRedirectProps) (report : ListReport) :
  list_report inputRows = Normal report ->
  redirectsList report = validRedirects inputRows
  /\ badRows report = filter isBadRow inputRows.
Proof.
  intros H. apply listRows_report in H. cbn [app] in H. tauto.
Qed.

Lemma list_report_lists_witness :
  let rows := [ rawRow "/a" "/b" FlagAbsent FlagAbsent;
                rawRow "/x" "/x" FlagAbsent FlagAbsent;
                rawRow "/old" "/new" FlagAbsent (FlagString "true") ] in
  let report := {| redirectsList := [ Redirect.Build "/a" "/b" C302 true false ];
                   badRows := [ rawRow "/x" "/x" FlagAbsent FlagAbsent ] |} in
  list_report rows = Normal report
  /\ redirectsList report = validRedirects rows
  /\ badRows report = filter isBadRow rows.
Proof.
  cbv zeta. split; [reflexivity|].
  apply (@list_report_lists SpecValidators). reflexivity.
Defined.

(** X4. [list] throws exactly when the [deleted] field of some row of
    the sheet makes [validateBoolean] throw; on any other sheet it
    returns a report. *)
Theorem list_report_throws_iff {V : Validators} (inputRows : list RawRedirectProps) :
  list_report inputRows = Throw
  <-> Exists (fun row => validateBoolean (Raw.deleted row) false = Throw) inputRows.
Proof.
  split.
  - apply listRows_Throw.
  - intros H. apply Exists_exists in H. destruct H as (row & Hin & H).
    unfold list_report. eapply listRows_throws; eassumption.
Qed.

(** X5. When [list] returns, every row of the sheet is counted once:
    the valid redirects, the rows with errors and the rows marked
    deleted add up to the rows of the sheet. *)
Theorem list_report_counts {V : Validators}
  (inputRows : list RawRedirectProps) (report : ListReport) :
  list_report inputRows = Normal report ->
  length inputRows
  = length (redirectsList report) + length (badRows report)
    + length (filter isDeletedRow inputRows).
Proof.
  intros H. apply listRows_report in H. cbn [length] in H.
  destruct H as (_ & _ & H). exact H.
Qed.

Lemma list_report_counts_witness :
  let rows := [ rawRow "/a" "/b" FlagAbsent FlagAbsent;
                rawRow "/x" "/x" FlagAbsent FlagAbsent;
                rawRow "/old" "/new" FlagAbsent (FlagString "true") ] in
  let report := {| redirectsList := [ Redirect.Build "/a" "/b" C302 true false ];
                   badRows := [ rawRow "/x" "/x" FlagAbsent FlagAbsent ] |} in
  list_report rows = Normal report
  /\ length rows
     = length (redirectsList report) + length (badRows report)
       + length (filter isDeletedRow rows).
Proof.
  cbv zeta. split; [reflexivity|].
  apply (@list_report_counts SpecValidators). reflexivity.
Defined.

(** X6. When [list] returns, a row that [processSheetRow] rejects and
    whose [deleted] field validates to false is among the rows with
    errors: a self-redirect, or a row with a field that does not
    validate. *)
Theorem rejected_row_reported {V : Validators}
  (inputRows : list RawRedirectProps) (report : ListReport) (row : RawRedirectProps) :
  list_report inputRows = Normal report ->
  In row inputRows ->
  processSheetRow row = None ->
  validateBoolean (Raw.deleted row) false = Normal false ->
  In row (badRows report).
Proof.
  intros H Hin Hr Hd. apply listRows_report in H. destruct H as (_ & -> & _).
  cbn [app]. apply filter_In. split; [exact Hin|].
  unfold isBadRow. now rewrite Hr, Hd.
Qed.

Lemma rejected_row_reported_witness :
  let selfRedirect := rawRow "/x" "/x" FlagAbsent FlagAbsent in
  let badCode := Raw.Build "/a" "/b" (CodeNumber 200) FlagAbsent FlagAbsent in
  list_report [ selfRedirect; badCode ]
  = Normal {| redirectsList := []; badRows := [ selfRedirect; badCode ] |}
  /\ In badCode [ selfRedirect; badCode ].
Proof.
  cbv zeta. split; [reflexivity|].
  apply (@rejected_row_reported SpecValidators
           [ rawRow "/x" "/x" FlagAbsent FlagAbsent;
             Raw.Build "/a" "/b" (CodeNumber 200) FlagAbsent FlagAbsent ]
           {| redirectsList := [];
              badRows := [ rawRow "/x" "/x" FlagAbsent FlagAbsent;
                           Raw.Build "/a" "/b" (CodeNumber 200) FlagAbsent FlagAbsent ] |});
    [reflexivity|right; now left|reflexivity|reflexivity].
Defined.

(** ** Expansion *)

Lemma length_append (a b : string) :
  String.length (a ++ b) = String.length a + String.length b.
Proof. induction a as [|c a IH]; cbn; [reflexivity|now rewrite IH]. Qed.

Lemma append_cancel_l (a x y : string) : (a ++ x = a ++ y)%string -> x = y.
Proof.
  induction a as [|c a IH]; cbn; intros H; [exact H|].
  injection H as H. now apply IH.
Qed.

Lemma append_cancel_r (p : string) : forall x y : string,
  (x ++ p = y ++ p)%string -> x = y.
Proof.
  induction x as [|c x IH]; intros y H.
  - apply (f_equal String.length) in H. rewrite !length_append in H.
    destruct y; [reflexivity|]. cbn in H. lia.
  - destruct y as [|d y].
    + apply (f_equal String.length) in H. rewrite !length_append in H.
      cbn in H. lia.
    + cbn in H. injection H as -> H. f_equal. now apply IH.
Qed.

Section ExpansionMore.

Context {site : Site}.

Lemma processBulkList_cons (row : RedirectProps) (rest : list RedirectProps) :
  processBulkList (row :: rest) = expandRow row ++ processBulkList rest.
Proof. reflexivity. Qed.

Lemma length_expandRow (row : RedirectProps) :
  length (expandRow row)
  = if Redirect.localized row then S (length (prefixLocales SiteLocales)) else 1.
Proof.
  unfold expandRow. rewrite length_map.
  destruct (Redirect.localized row); [|reflexivity].
  now rewrite length_app, pushLocales_map, length_map.
Qed.

Lemma In_expandRow (row : RedirectProps) (item : BulkRedirectListItem) :
  In item (expandRow row)
  <-> item = {| redirect := makeRule row None |}
      \/ (Redirect.localized row = true
          /\ exists locale, In locale SiteLocales /\ locale <> "en-us"%string
                            /\ item = {| redirect := makeRule row (Some locale) |}).
Proof.
  destruct (Redirect.localized row) eqn:E.
  - rewrite (expandRow_localized _ E). cbn [In]. rewrite in_map_iff. split.
    + intros [<-|(locale & <- & Hin)]; [now left|right].
      apply filter_In in Hin. destruct Hin as [Hin Hne].
      split; [reflexivity|]. exists locale. split; [exact Hin|].
      split; [|reflexivity]. apply negb_true_iff in Hne. now apply String.eqb_neq.
    + intros [->|(_ & locale & Hin & Hne & ->)]; [now left|right].
      exists locale. split; [reflexivity|]. apply filter_In. split; [exact Hin|].
      apply negb_true_iff. now apply String.eqb_neq.
  - unfold expandRow. rewrite E. cbn [map In]. split.
    + intros [<-|[]]. now left.
    + intros [->|(Hl & _)]; [now left|discriminate].
Qed.

Lemma absoluteDomain_append (s : string) :
  absoluteDomain DEFAULT_DEST_DOMAIN -> ~ hostRelative (DEFAULT_DEST_DOMAIN ++ s).
Proof.
  intros (c & rest & -> & Hc) [r H]. cbn in H. injection H as H _. contradiction.
Qed.

Lemma makeFullURL_locale (path locale : string) :
  hostRelative path -> locale <> ""%string ->
  makeFullURL path (Some locale)
  = (DEFAULT_DEST_DOMAIN ++ ("/" ++ locale) ++ path)%string.
Proof.
  intros H Hl. rewrite makeFullURL_relative by assumption. cbn.
  apply String.eqb_neq in Hl. now rewrite Hl.
Qed.

End ExpansionMore.

(** With the locales of the Worker, en-us first, a localized record
    expands into three items: the base one, de-de and es-es. *)
Lemma processBulkList_worker (domain : string) (row : RedirectProps) :
  Redirect.localized row = true ->
  @processBulkList (workerSite domain) [row]
  = [ {| redirect := @makeRule (workerSite domain) row None |};
      {| redirect := @makeRule (workerSite domain) row (Some "de-de"%string) |};
      {| redirect := @makeRule (workerSite domain) row (Some "es-es"%string) |} ].
Proof.
  intros H. rewrite processBulkList_one, (expandRow_localized _ H). reflexivity.
Qed.

(** X7. [processBulkList] makes one item per record, and for each
    localized record one more per locale of the list other than en-us. *)
Theorem processBulkList_length {site : Site} (input : list RedirectProps) :
  length (processBulkList input)
  = length input
    + length (filter Redirect.localized input) * length (prefixLocales SiteLocales).
Proof.
  induction input as [|row rest IH]; [reflexivity|].
  rewrite processBulkList_cons, length_app, length_expandRow, IH.
  cbn [filter length]. destruct (Redirect.localized row); cbn [length]; lia.
Qed.

(** X8. The items of [processBulkList] are, for each record of its
    input, the item without a locale and, when the record is localized,
    the items of the locales of the list other than en-us: an item
    always has the status code of its record, and its source and its
    target are resolved with the same locale. *)
Theorem processBulkList_items {site : Site}
  (input : list RedirectProps) (item : BulkRedirectListItem) :
  In item (processBulkList input)
  <-> exists row,
        In row input
        /\ (item = {| redirect := makeRule row None |}
            \/ (Redirect.localized row = true
                /\ exists locale,
                     In locale SiteLocales /\ locale <> "en-us"%string
                     /\ item = {| redirect := makeRule row (Some locale) |})).
Proof.
  unfold processBulkList. rewrite in_flat_map.
  split; intros (row & Hin & H); exists row; (split; [exact Hin|]);
    now apply In_expandRow.
Qed.

(** X9. With a destination domain that does not start with a slash (and
    is not empty), what [makeFullURL] returns is left as it is by
    [makeFullURL], whatever the locales: a resolved URL is not resolved
    again. *)
Theorem makeFullURL_idempotent {site : Site}
  (path : string) (locale locale' : option string) :
  absoluteDomain DEFAULT_DEST_DOMAIN ->
  makeFullURL (makeFullURL path locale) locale' = makeFullURL path locale.
Proof.
  intros HD. unfold makeFullURL at 2 3.
  destruct (indexOf "/" path =? 0)%Z eqn:E.
  - apply makeFullURL_absolute. now apply absoluteDomain_append.
  - apply makeFullURL_absolute. intros H. apply indexOf_slash_0 in H.
    rewrite H in E. discriminate.
Qed.

Lemma makeFullURL_idempotent_witness :
  absoluteDomain (@DEFAULT_DEST_DOMAIN exampleSite)
  /\ @makeFullURL exampleSite (@makeFullURL exampleSite "/b" (Some "de-de")) (Some "es-es")
     = "https://www.example.com/de-de/b".
Proof.
  assert (H : absoluteDomain (@DEFAULT_DEST_DOMAIN exampleSite)).
  { exists "h"%char, "ttps://www.example.com"%string. split; [reflexivity|discriminate]. }
  split; [exact H|].
  exact (@makeFullURL_idempotent exampleSite "/b" (Some "de-de"%string)
           (Some "es-es"%string) H).
Defined.

(** X10. A localized record whose source and destination both are
    absolute URLs expands into copies of one and the same item, one per
    locale other than en-us on top of the base one: the locales change
    nothing in it. *)
Theorem processBulkList_absolute_duplicates {site : Site} (row : RedirectProps) :
  ~ hostRelative (Redirect.source row) ->
  ~ hostRelative (Redirect.destination row) ->
  Redirect.localized row = true ->
  processBulkList [row]
  = repeat {| redirect := {| source_url := Redirect.source row;
                             target_url := Redirect.destination row;
                             status_code := Redirect.code row |} |}
           (S (length (prefixLocales SiteLocales))).
Proof.
  intros Hs Hd Hl. rewrite processBulkList_one, (expandRow_localized _ Hl).
  assert (Hr : forall locale,
             makeRule row locale
             = {| source_url := Redirect.source row;
                  target_url := Redirect.destination row;
                  status_code := Redirect.code row |}).
  { intros locale. unfold makeRule. now rewrite !makeFullURL_absolute. }
  cbn [repeat]. rewrite Hr. f_equal.
  induction (prefixLocales SiteLocales) as [|l ls IH]; [reflexivity|].
  cbn [map length repeat]. now rewrite Hr, IH.
Qed.

Lemma processBulkList_absolute_duplicates_witness :
  let item := {| redirect := Build_Rule "https://a.example/x" "https://b.example/y" C301 |} in
  ~ hostRelative "https://a.example/x"
  /\ ~ hostRelative "https://b.example/y"
  /\ @processBulkList exampleSite
       [ Redirect.Build "https://a.example/x" "https://b.example/y" C301 true false ]
     = [ item; item; item ].
Proof.
  cbv zeta.
  assert (Ha : ~ hostRelative "https://a.example/x") by (intros [r H]; discriminate).
  assert (Hb : ~ hostRelative "https://b.example/y") by (intros [r H]; discriminate).
  split; [exact Ha|]. split; [exact Hb|].
  exact (@processBulkList_absolute_duplicates exampleSite
           (Redirect.Build "https://a.example/x" "https://b.example/y" C301 true false)
           Ha Hb eq_refl).
Defined.

(** X11. For a record with a host-relative source, and a list of
    locales without repetition and without an empty locale, the items of
    the record have pairwise distinct source URLs: no two items of one
    record compete for the same source. *)
Theorem processBulkList_sources_distinct {site : Site} (row : RedirectProps) :
  hostRelative (Redirect.source row) ->
  NoDup SiteLocales ->
  Forall (fun locale => locale <> ""%string) SiteLocales ->
  NoDup (map (fun item => source_url (redirect item)) (processBulkList [row])).
Proof.
  intros Hs Hnd Hne. rewrite processBulkList_one.
  destruct (Redirect.localized row) eqn:Hl.
  - rewrite (expandRow_localized _ Hl). cbn [map]. rewrite map_map. cbn.
    assert (Hin : forall l, In l (prefixLocales SiteLocales) -> l <> ""%string).
    { intros l H. apply filter_In in H. rewrite Forall_forall in Hne.
      now apply Hne. }
    constructor.
    + rewrite in_map_iff. intros (l & H & Hl').
      rewrite (makeFullURL_locale Hs (Hin _ Hl')) in H.
      rewrite (makeFullURL_relative None Hs) in H. cbn [truthy] in H.
      apply append_cancel_l in H.
      apply (f_equal String.length) in H. rewrite !length_append in H.
      cbn in H. lia.
    + apply NoDup_map_NoDup_ForallPairs; [|now apply NoDup_filter].
      intros l1 l2 H1 H2 H.
      rewrite (makeFullURL_locale Hs (Hin _ H1)) in H.
      rewrite (makeFullURL_locale Hs (Hin _ H2)) in H.
      apply append_cancel_l, append_cancel_r in H. now injection H.
  - unfold expandRow. rewrite Hl. cbn. constructor; [intros []|constructor].
Qed.

Lemma Locales_NoDup : NoDup Locales.
Proof.
  unfold Locales.
  repeat (constructor; [cbn; intuition discriminate|]). constructor.
Qed.

(** The sources of the 22 items of a localized record of index.ts. *)
Lemma processBulkList_sources_distinct_witness :
  hostRelative "/pricing"
  /\ NoDup (map (fun item => source_url (redirect item))
              (@processBulkList (cliSite "https://www.example.com")
                 [ Redirect.Build "/pricing" "/plans" C301 true false ])).
Proof.
  assert (H : hostRelative "/pricing") by (now exists "pricing"%string).
  split; [exact H|].
  exact (@processBulkList_sources_distinct (cliSite "https://www.example.com")
           (Redirect.Build "/pricing" "/plans" C301 true false)
           H Locales_NoDup Locales_not_empty).
Defined.

(** ** Reconciler *)

Lemma filter_nil_iff {A} (f : A -> bool) (l : list A) :
  filter f l = [] <-> forall x, In x l -> f x = false.
Proof.
  induction l as [|a l IH]; cbn.
  - split; [intros _ x []|reflexivity].
  - destruct (f a) eqn:E.
    + split; [discriminate|]. intros H. specialize (H a (or_introl eq_refl)).
      congruence.
    + rewrite IH. split.
      * intros H x [<-|Hx]; [exact E|now apply H].
      * intros H x Hx. apply H. now right.
Qed.

Lemma ruleInList_false (rule : BulkRedirectListItem) (list : list BulkRedirectListItem) :
  ruleInList rule list = false <-> ~ In rule list.
Proof.
  rewrite <- ruleInList_In. now destruct (ruleInList rule list).
Qed.

(** X12. [diff] has nothing to add and nothing to remove exactly when
    the two lists hold the same rules, in whatever order and however
    many times each. *)
Theorem diffRules_empty_iff (desired current : list BulkRedirectListItem) :
  diffRules desired current = {| addedRules := []; removedRules := [] |}
  <-> (forall rule, In rule desired <-> In rule current).
Proof.
  unfold diffRules. split.
  - intros H. injection H as Ha Hr.
    rewrite filter_nil_iff in Ha, Hr. intros rule. split; intros Hin.
    + specialize (Ha _ Hin). apply negb_false_iff in Ha. now apply ruleInList_In.
    + specialize (Hr _ Hin). apply negb_false_iff in Hr. now apply ruleInList_In.
  - intros H. f_equal; apply filter_nil_iff; intros rule Hin;
      apply negb_false_iff, ruleInList_In, H, Hin.
Qed.

(** X13. The two lists of [diff] are what a publication changes: the
    rules of the spreadsheet are the rules of Cloudflare that are not
    removed together with the added ones, and no rule is both added and
    removed. *)
Theorem diffRules_applies (desired current : list BulkRedirectListItem)
  (rule : BulkRedirectListItem) :
  (In rule desired
   <-> (In rule current /\ ~ In rule (removedRules (diffRules desired current)))
       \/ In rule (addedRules (diffRules desired current)))
  /\ ~ (In rule (addedRules (diffRules desired current))
        /\ In rule (removedRules (diffRules desired current))).
Proof.
  unfold diffRules. cbn [addedRules removedRules].
  rewrite !filter_not_ruleInList_In.
  pose proof (ruleInList_In rule current) as Hc.
  pose proof (ruleInList_In rule desired) as Hd.
  destruct (ruleInList rule current), (ruleInList rule desired);
    intuition congruence.
Qed.

(** ** Batch publisher and Worker *)

Section PublishMore.

Context {World : Type} {remote : Collaborators World}.

(** The state [uploadBatch] leaves: the upload, and the polling of the
    bulk operation if the response has the id of one. *)
Lemma uploadBatch_state (i : nat) (batchList : list BulkRedirectListItem)
  (w : World) (log : list Call) :
  let uploaded := uploadBulkList batchList w in
  let upload := UploadBulkList batchList (fst uploaded) in
  snd (uploadBatch i batchList (w, log))
  = match bulkOperationsId (fst uploaded) with
    | Some id =>
        if (id =? "")%string then (snd uploaded, log ++ [upload])
        else (snd (getBulkOpsStatus id (snd uploaded)),
              log ++ [upload; GetBulkOpsStatus id (fst (getBulkOpsStatus id (snd uploaded)))])
    | None => (snd uploaded, log ++ [upload])
    end.
Proof.
  cbv zeta. unfold uploadBatch, bind, await, ret. cbn [fst snd].
  destruct (uploadBulkList batchList w) as [uploadResponse w']. cbn [fst snd].
  destruct (bulkOperationsId uploadResponse) as [id|]; cbn [truthy].
  - destruct (id =? "")%string; cbn [negb].
    + now destruct (success uploadResponse) as [[|]|].
    + match goal with
      | |- context [getBulkOpsStatus id ?x] =>
          change x with w'; destruct (getBulkOpsStatus id w') as [ok w'']
      end.
      destruct ok; cbn [fst snd]; now rewrite <- app_assoc.
  - now destruct (success uploadResponse) as [[|]|].
Qed.

Lemma uploadBatch_batchCalls (i : nat) (batchList : list BulkRedirectListItem)
  (st : State World) :
  exists calls, snd (snd (uploadBatch i batchList st)) = snd st ++ calls
                /\ Forall batchCall calls.
Proof.
  destruct st as [w log]. rewrite uploadBatch_state. cbn [snd].
  destruct (bulkOperationsId _) as [id|]; [destruct (id =? "")%string|];
    cbn [snd]; eexists; (split; [reflexivity|]); repeat constructor.
Qed.

Lemma uploadBatches_batchCalls (batches : list (list BulkRedirectListItem)) :
  forall i results (st : State World),
  exists calls, snd (snd (uploadBatches batches i results st)) = snd st ++ calls
                /\ Forall batchCall calls.
Proof.
  induction batches as [|b rest IH]; intros i results st; cbn [uploadBatches].
  - exists []. rewrite app_nil_r. now split.
  - destruct (IH (S i) (results ++ [fst (uploadBatch (S i) b st)])
                (snd (uploadBatch (S i) b st))) as (calls' & E' & F').
    destruct (uploadBatch_batchCalls (S i) b st) as (calls & E & F).
    exists (calls ++ calls'). rewrite E', E, app_assoc.
    split; [reflexivity|]. apply Forall_app. now split.
Qed.

End PublishMore.

(** X14. [uploadBatch] calls [uploadBulkList] once, with its batch, and
    then [getBulkOpsStatus] once, with the id of the response, when the
    response has one (a non-empty string); it makes no other call. *)
Theorem uploadBatch_calls {World : Type} {remote : Collaborators World}
  (i : nat) (batchList : list BulkRedirectListItem) (w : World) (log : list Call) :
  (forall id, bulkOperationsId (fst (uploadBulkList batchList w)) = Some id ->
              id <> ""%string ->
     snd (snd (uploadBatch i batchList (w, log)))
     = log ++ [ UploadBulkList batchList (fst (uploadBulkList batchList w));
                GetBulkOpsStatus id
                  (fst (getBulkOpsStatus id (snd (uploadBulkList batchList w)))) ])
  /\ (bulkOperationsId (fst (uploadBulkList batchList w)) = None ->
     snd (snd (uploadBatch i batchList (w, log)))
     = log ++ [ UploadBulkList batchList (fst (uploadBulkList batchList w)) ]).
Proof.
  split.
  - intros id Hid Hne. rewrite uploadBatch_state, Hid.
    apply String.eqb_neq in Hne. now rewrite Hne.
  - intros Hid. now rewrite uploadBatch_state, Hid.
Qed.

Lemma uploadBatch_calls_witness :
  let w := {| sheet := []; truncateOk := true;
              uploadResponses := [ response (Some true) (Some "5f3a") ];
              operationOk := true |} in
  snd (snd (uploadBatch 1 [] (w, [])))
  = [ UploadBulkList [] (response (Some true) (Some "5f3a"));
      GetBulkOpsStatus "5f3a" true ].
Proof.
  cbv zeta.
  refine (proj1 (@uploadBatch_calls Script Scripted 1 []
                   {| sheet := []; truncateOk := true;
                      uploadResponses := [ response (Some true) (Some "5f3a") ];
                      operationOk := true |} [])
                "5f3a"%string eq_refl _).
  discriminate.
Defined.

(** X15. The calls of a run of [publish], in order: the rows are
    fetched, the list is truncated, once and before any upload, then
    come uploads and pollings only, and the description is set, once
    and last, whatever the uploads came to. *)
Theorem publish_call_order {V : Validators} {World : Type} {remote : Collaborators World}
  (makeBulkList : list RedirectProps -> list BulkRedirectListItem) (w : World) :
  exists calls description ok,
    snd (snd (publishRun makeBulkList w))
    = FetchRedirectRows (fst (fetchRedirectRows w))
        :: EmptyBulkList (fst (emptyBulkList (snd (fetchRedirectRows w))))
        :: calls ++ [ SetListDescription description ok ]
    /\ Forall batchCall calls.
Proof.
  rewrite publishRun_unfold. cbn [fst snd].
  destruct (uploadBatches_batchCalls (batchesOf (bulkListOf makeBulkList w)) 0 []
              (afterTruncate w)) as (calls & E & F).
  exists calls. eexists _, _. rewrite E. split; [reflexivity|exact F].
Qed.




(** X18. Every item [publish] uploads is an item of the expansion of a
    record that [processSheetRow] returned for a row of the sheet: no
    item comes from a rejected row or from a row marked deleted. *)
Theorem publish_uploads_from_valid_rows {V : Validators} {World : Type}
  {remote : Collaborators World} {site : Site} (w : World)
  (batchList : list BulkRedirectListItem) (item : BulkRedirectListItem) :
  In batchList (uploads (snd (snd (publishRun processBulkList w)))) ->
  In item batchList ->
  exists row r,
    In row (fst (fetchRedirectRows w))
    /\ processSheetRow row = Some r
    /\ Redirect.deleted r = false
    /\ In item (processBulkList [r]).
Proof.
  intros Hb Hi.
  assert (Hin : In item (concat (uploads (snd (snd (publishRun processBulkList w)))))).
  { apply in_concat. eauto. }
  destruct (publishRun_log processBulkList w) as (Hu & _ & _).
  rewrite Hu, concat_batchesOf in Hin. unfold bulkListOf, processBulkList in Hin.
  apply in_flat_map in Hin. destruct Hin as (r & Hr & Hitem).
  apply In_validRedirects in Hr. destruct Hr as (row & Hrow & E).
  exists row, r. split; [exact Hrow|]. split; [exact E|].
  split; [now apply processSheetRow_Some in E|].
  now rewrite processBulkList_one.
Qed.

Lemma publish_uploads_from_valid_rows_witness :
  let item := {| redirect := Build_Rule "https://www.example.com/old"
                                        "https://www.example.com/new" C302 |} in
  In [ item ] (uploads (snd (snd (publishRun (@processBulkList exampleSite) truncateFails))))
  /\ exists row r,
       In row (sheet truncateFails)
       /\ processSheetRow row = Some r
       /\ Redirect.deleted r = false
       /\ In item (@processBulkList exampleSite [r]).
Proof.
  cbv zeta.
  assert (H : In [ {| redirect := Build_Rule "https://www.example.com/old"
                                             "https://www.example.com/new" C302 |} ]
                 (uploads (snd (snd (publishRun (@processBulkList exampleSite)
                                                truncateFails)))))
    by (vm_compute; now left).
  split; [exact H|].
  exact (@publish_uploads_from_valid_rows SpecValidators Script Scripted exampleSite
           truncateFails _ _ H (or_introl eq_refl)).
Defined.
